(** * Account REST service: a shallow embedding of [service/routes.py]

    The request handlers of the account microservice are embedded as
    functions in a small state-and-exception monad over the account table.
    The handlers, the content-type check and the route table are translated
    from [service/routes.py].  The [Account] model, the application's error
    handlers and the web framework are not part of the translated sources;
    their definitions below are marked as modelled from the specification. *)

From Stdlib Require Import List String Ascii Bool Arith ZArith Lia Permutation.
From Stdlib Require DecimalString DecimalZ.
Import ListNotations.
Set Warnings "-register-all,-abstract-large-number".
Local Open Scope string_scope.
Local Open Scope list_scope.
Local Open Scope nat_scope.

(* ================================================================= *)
(** ** JSON values *)

(** The value returned by [request.get_json()] and accepted by [jsonify].
    Python's [None] is [JNull]; a [dict] is an association list whose first
    binding of a key is the one looked up. *)
Inductive Json : Type :=
| JNull
| JBool (b : bool)
| JNum (n : Z)
| JStr (s : string)
| JArr (l : list Json)
| JObj (kvs : list (string * Json)).

Fixpoint assoc_get {A : Type} (k : string) (kvs : list (string * A)) : option A :=
  match kvs with
  | [] => None
  | (k', v) :: rest => if String.eqb k k' then Some v else assoc_get k rest
  end.

(** [data[k]] and [data.get(k)] on a parsed body: [None] when the body is not
    a mapping or lacks the key. *)
Definition obj_get (k : string) (j : Json) : option Json :=
  match j with
  | JObj kvs => assoc_get k kvs
  | _ => None
  end.

(* ================================================================= *)
(** ** Calendar dates *)

Record date : Type := mkDate { year : nat; month : nat; day : nat }.

Definition is_digit (c : ascii) : bool :=
  (48 <=? nat_of_ascii c) && (nat_of_ascii c <=? 57).

Definition digit_val (c : ascii) : nat := nat_of_ascii c - 48.

Definition digit_char (n : nat) : ascii := ascii_of_nat (48 + n).

Definition is_leap (y : nat) : bool :=
  (y mod 4 =? 0) && (negb (y mod 100 =? 0) || (y mod 400 =? 0)).

Definition days_in_month (y m : nat) : nat :=
  match m with
  | 1 | 3 | 5 | 7 | 8 | 10 | 12 => 31
  | 4 | 6 | 9 | 11 => 30
  | 2 => if is_leap y then 29 else 28
  | _ => 0
  end.

Definition valid_date (d : date) : bool :=
  (1 <=? year d) && (year d <? 10 * 1000) &&
  (1 <=? month d) && (month d <=? 12) &&
  (1 <=? day d) && (day d <=? days_in_month (year d) (month d)).

Definition dash : ascii := "-"%char.

(** Modelled from the spec: [date.fromisoformat], the parser behind "parses
    the provided ISO-8601 string".  It accepts the calendar form
    [YYYY-MM-DD] of a date that exists and nothing else. *)
Definition fromisoformat (s : string) : option date :=
  match list_ascii_of_string s with
  | [y1; y2; y3; y4; s1; m1; m2; s2; d1; d2] =>
      if forallb is_digit [y1; y2; y3; y4; m1; m2; d1; d2]
         && Ascii.eqb s1 dash && Ascii.eqb s2 dash
      then
        let d := mkDate (1000 * digit_val y1 + 100 * digit_val y2
                         + 10 * digit_val y3 + digit_val y4)
                        (10 * digit_val m1 + digit_val m2)
                        (10 * digit_val d1 + digit_val d2) in
        if valid_date d then Some d else None
      else None
  | _ => None
  end.

(** Modelled from the spec: [date.isoformat], "date as ISO-8601 string":
    four digits of year, two of month, two of day. *)
Definition isoformat (d : date) : string :=
  string_of_list_ascii
    [ digit_char (year d / 1000 mod 10); digit_char (year d / 100 mod 10);
      digit_char (year d / 10 mod 10); digit_char (year d mod 10);
      dash;
      digit_char (month d / 10 mod 10); digit_char (month d mod 10);
      dash;
      digit_char (day d / 10 mod 10); digit_char (day d mod 10) ].

(* ================================================================= *)
(** ** Exceptions *)

(** The exception classes the handlers raise, catch or let through:
    [abort(code, description)] raises an [HTTPException]; the model raises
    [DataValidationError]; [update_account] has a handler for [KeyError]. *)
Inductive exn : Type :=
| HTTPException (code : nat) (description : string)
| DataValidationError (msg : string)
| KeyError (key : string).

Inductive result (A : Type) : Type :=
| Ok (a : A)
| Raise (e : exn).
Arguments Ok {A} a.
Arguments Raise {A} e.

(** HTTP status codes of [service.common.status] used by the routes. *)
Definition HTTP_200_OK : nat := 200.
Definition HTTP_201_CREATED : nat := 201.
Definition HTTP_204_NO_CONTENT : nat := 204.
Definition HTTP_400_BAD_REQUEST : nat := 400.
Definition HTTP_404_NOT_FOUND : nat := 404.
Definition HTTP_405_METHOD_NOT_ALLOWED : nat := 405.
Definition HTTP_415_UNSUPPORTED_MEDIA_TYPE : nat := 415.
Definition HTTP_500_INTERNAL_SERVER_ERROR : nat := 500.

(* ================================================================= *)
(** ** The Account model *)

Module Account.

(** Modelled from the spec: the Account record of [service.models].  The
    identifier is unset ([None]) until the store assigns one. *)
Record t : Type := mk {
  id : option Z;
  name : string;
  email : string;
  address : string;
  phone_number : string;
  date_joined : date
}.

(** Modelled from the spec: the account table.  [rows] holds the stored
    records in storage order; [next_id] is the next identifier the store
    hands out. *)
Record db : Type := mkDb {
  rows : list t;
  next_id : Z
}.

(** Modelled from the spec: [Account()], an in-memory record with unset
    identifier whose date defaults to the creation date. *)
Definition new (today : date) : t := mk None "" "" "" "" today.

Definition has_id (n : Z) (a : t) : bool :=
  match id a with
  | Some m => Z.eqb m n
  | None => false
  end.

(** An identifier as a handler passes it to [find]: the [int] converter
    yields an integer, the default converter the path segment as text. *)
Inductive ident : Type :=
| IdInt (n : Z)
| IdStr (s : string).

Fixpoint digits_value (acc : Z) (s : string) : option Z :=
  match s with
  | EmptyString => Some acc
  | String c rest =>
      if is_digit c
      then digits_value (10 * acc + Z.of_nat (digit_val c)) rest
      else None
  end.

(** The integer a path segment denotes: a non-empty run of decimal
    digits, as the [int] URL converter reads it on ASCII text.  The
    converter also takes the decimal digits of other scripts; segments
    with such characters are outside this model, and the statements that
    depend on a segment being refused are made for ASCII segments. *)
Definition int_of_segment (s : string) : option Z :=
  match s with
  | EmptyString => None
  | _ => digits_value 0 s
  end.

Definition key_of (i : ident) : option Z :=
  match i with
  | IdInt n => Some n
  | IdStr s => int_of_segment s
  end.

(** Modelled from the spec: [find(id)], "returns the matching Account or
    a not-found indicator (no exception for absence)".  A textual
    identifier matches the record whose integer identifier it denotes. *)
Definition find (d : db) (i : ident) : option t :=
  match key_of i with
  | Some n => List.find (has_id n) (rows d)
  | None => None
  end.

(** Modelled from the spec: [all()], every stored Account in storage
    order. *)
Definition all (d : db) : list t := rows d.

Definition set_id (n : Z) (a : t) : t :=
  mk (Some n) (name a) (email a) (address a) (phone_number a) (date_joined a).

(** Modelled from the spec: [create()], "persists it and assigns a new
    unique identifier".  Returns the table and the record with its
    identifier set. *)
Definition create (d : db) (a : t) : db * t :=
  let a' := set_id (next_id d) a in
  (mkDb (rows d ++ [a']) (next_id d + 1), a').

Definition same_id (a b : t) : bool :=
  match id a, id b with
  | Some n, Some m => Z.eqb n m
  | _, _ => false
  end.

(** Modelled from the spec: [update()], "overwrites the stored record's
    fields" of the record with the account's identifier. *)
Definition update (d : db) (a : t) : db :=
  mkDb (map (fun r => if same_id r a then a else r) (rows d)) (next_id d).

(** Modelled from the spec: [delete()], "removes the corresponding stored
    record.  No-op if absent". *)
Definition delete (d : db) (a : t) : db :=
  mkDb (filter (fun r => negb (same_id r a)) (rows d)) (next_id d).

(** Modelled from the spec: [serialize()], "identifier as integer, date
    as ISO-8601 string, others as strings". *)
Definition serialize (a : t) : Json :=
  JObj [ ("id", match id a with Some n => JNum n | None => JNull end);
         ("name", JStr (name a));
         ("email", JStr (email a));
         ("address", JStr (address a));
         ("phone_number", JStr (phone_number a));
         ("date_joined", JStr (isoformat (date_joined a))) ].

(** A required textual field of the body. *)
Definition required (k : string) (data : Json) : result string :=
  match obj_get k data with
  | Some (JStr s) => Ok s
  | Some _ => Raise (DataValidationError ("Invalid Account: bad " ++ k)%string)
  | None => Raise (DataValidationError ("Invalid Account: missing " ++ k)%string)
  end.

(** The date of the body: today's when the key is absent. *)
Definition joined (today : date) (data : Json) : result date :=
  match obj_get "date_joined" data with
  | None => Ok today
  | Some (JStr s) =>
      match fromisoformat s with
      | Some d => Ok d
      | None => Raise (DataValidationError "Invalid Account: bad date_joined")
      end
  | Some _ => Raise (DataValidationError "Invalid Account: bad date_joined")
  end.

(** Modelled from the spec: [deserialize(mapping)], "fails with a
    validation error if any required field (name, email, address,
    phone_number) is missing or of the wrong shape; date_joined defaults
    to the current date if absent or parses the provided ISO-8601
    string".  The identifier of the account is not touched.  The method
    fills the account it is called on; as "handlers hold only transient
    in-memory copies during a request", a failed call leaves nothing
    behind, and the filled account is the value returned here. *)
Definition deserialize (today : date) (a : t) (data : Json) : result t :=
  match required "name" data with
  | Raise e => Raise e
  | Ok n =>
  match required "email" data with
  | Raise e => Raise e
  | Ok e =>
  match required "address" data with
  | Raise e => Raise e
  | Ok ad =>
  match required "phone_number" data with
  | Raise e => Raise e
  | Ok p =>
  match joined today data with
  | Raise e => Raise e
  | Ok dj => Ok (mk (id a) n e ad p dj)
  end end end end end.

End Account.

(* ================================================================= *)
(** ** Requests, responses and the handler monad *)

(** The request methods the routes name and the test suite sends, and PATCH
    as one that no route names.  HEAD and OPTIONS, which the framework
    answers on its own for every rule, are not part of this model: no
    statement below speaks of them. *)
Inductive Method : Type := GET | POST | PUT | DELETE | PATCH.

Definition Method_eqb (a b : Method) : bool :=
  match a, b with
  | GET, GET | POST, POST | PUT, PUT | DELETE, DELETE | PATCH, PATCH => true
  | _, _ => false
  end.

(** What a handler reads of the [request] object: method and path for
    routing, the headers, and the value [request.get_json()] returns. *)
Record Request : Type := mkRequest {
  method : Method;
  path : string;
  headers : list (string * string);
  get_json : Json
}.

Inductive Body : Type :=
| BJson (j : Json)
| BText (s : string).

Record Response : Type := mkResponse {
  status_code : nat;
  data : Body;
  response_headers : list (string * string)
}.

(** A handler runs against the account table and either returns a value
    or raises; the table it leaves behind is kept in both cases. *)
Definition M (A : Type) : Type := Account.db -> result A * Account.db.

Definition ret {A : Type} (a : A) : M A := fun d => (Ok a, d).

Definition bind {A B : Type} (c : M A) (k : A -> M B) : M B :=
  fun d =>
    match c d with
    | (Ok a, d') => k a d'
    | (Raise e, d') => (Raise e, d')
    end.

Declare Scope handler_scope.
Delimit Scope handler_scope with handler.
Notation "x <- c ;; k" := (bind c (fun x => k))
  (at level 61, c at next level, right associativity) : handler_scope.
Notation "c ;;; k" := (bind c (fun _ => k))
  (at level 61, right associativity) : handler_scope.
Local Open Scope handler_scope.

Definition raise {A : Type} (e : exn) : M A := fun d => (Raise e, d).

(** [abort(code, description)]. *)
Definition abort {A : Type} (code : nat) (description : string) : M A :=
  raise (HTTPException code description).

Definition lift {A : Type} (r : result A) : M A := fun d => (r, d).

(** [try: c except <class>: h], with the class given as a test on the
    exception. *)
Definition try_except {A : Type} (c : M A) (catches : exn -> bool) (h : M A) : M A :=
  fun d =>
    match c d with
    | (Raise e, d') => if catches e then h d' else (Raise e, d')
    | r => r
    end.

Definition is_KeyError (e : exn) : bool :=
  match e with
  | KeyError _ => true
  | _ => false
  end.

(** The store operations as handler steps. *)
Definition Account_find (i : Account.ident) : M (option Account.t) :=
  fun d => (Ok (Account.find d i), d).

Definition Account_all : M (list Account.t) :=
  fun d => (Ok (Account.all d), d).

Definition Account_create (a : Account.t) : M Account.t :=
  fun d => let (d', a') := Account.create d a in (Ok a', d').

Definition Account_update (a : Account.t) : M unit :=
  fun d => (Ok tt, Account.update d a).

Definition Account_delete (a : Account.t) : M unit :=
  fun d => (Ok tt, Account.delete d a).

(** Header names compare without regard to letter case. *)
Definition lower_ascii (c : ascii) : ascii :=
  let n := nat_of_ascii c in
  if (65 <=? n) && (n <=? 90) then ascii_of_nat (n + 32) else c.

Fixpoint lower (s : string) : string :=
  match s with
  | EmptyString => EmptyString
  | String c rest => String (lower_ascii c) (lower rest)
  end.

(** [request.headers.get(name)]. *)
Fixpoint headers_get (name : string) (hs : list (string * string)) : option string :=
  match hs with
  | [] => None
  | (k, v) :: rest =>
      if String.eqb (lower k) (lower name) then Some v else headers_get name rest
  end.

(** Truth value of an optional string: [None] and the empty string are
    false. *)
Definition truthy (o : option string) : bool :=
  match o with
  | None => false
  | Some s => negb (String.eqb s "")
  end.

Definition jsonify (j : Json) : Body := BJson j.

Definition make_response (b : Body) (code : nat) (hs : list (string * string)) : Response :=
  mkResponse code b hs.

Section Handlers.

(** The date [date.today()] yields while the request is served. *)
Variable today : date.

(** [check_content_type(media_type)] *)
Definition check_content_type (req : Request) (media_type : string) : M unit :=
  let content_type := headers_get "Content-Type" (headers req) in
  if truthy content_type
     && match content_type with
        | Some ct => String.eqb ct media_type
        | None => false
        end
  then ret tt
  else abort HTTP_415_UNSUPPORTED_MEDIA_TYPE
             ("Content-Type must be " ++ media_type)%string.

(** [GET /health] *)
Definition health (req : Request) : M Response :=
  ret (make_response (jsonify (JObj [("status", JStr "OK")])) HTTP_200_OK []).

(** [GET /] *)
Definition index (req : Request) : M Response :=
  ret (make_response
         (jsonify (JObj [("name", JStr "Account REST API Service");
                         ("version", JStr "1.0")]))
         HTTP_200_OK []).

(** [POST /accounts] *)
Definition create_accounts (req : Request) : M Response :=
  check_content_type req "application/json" ;;;
  let account := Account.new today in
  account <- lift (Account.deserialize today account (get_json req)) ;;
  account <- Account_create account ;;
  let message := Account.serialize account in
  let location_url := "/" in
  ret (make_response (jsonify message) HTTP_201_CREATED
                     [("Location", location_url)]).

(** [GET /accounts] *)
Definition list_accounts (req : Request) : M Response :=
  accounts <- Account_all ;;
  let response := map Account.serialize accounts in
  ret (make_response (jsonify (JArr response)) HTTP_200_OK []).

(** [GET /accounts/<id>] *)
Definition read_account (id : string) (req : Request) : M Response :=
  account <- Account_find (Account.IdStr id) ;;
  match account with
  | None => abort HTTP_404_NOT_FOUND ("Account " ++ id ++ " not found")%string
  | Some account =>
      ret (make_response (jsonify (Account.serialize account)) HTTP_200_OK [])
  end.

(** [PUT /accounts/<int:id>] *)
Definition update_account (id : Z) (req : Request) : M Response :=
  account <- Account_find (Account.IdInt id) ;;
  match account with
  | None => abort HTTP_404_NOT_FOUND "Account could not be found"
  | Some account =>
      account <- try_except
                   (lift (Account.deserialize today account (get_json req)))
                   is_KeyError
                   (abort HTTP_400_BAD_REQUEST "Account Data invalid") ;;
      Account_update account ;;;
      ret (make_response (jsonify (Account.serialize account)) HTTP_200_OK [])
  end.

(** [DELETE /accounts/<int:id>] *)
Definition delete_account (id : Z) (req : Request) : M Response :=
  account <- Account_find (Account.IdInt id) ;;
  match account with
  | Some account => Account_delete account
  | None => ret tt
  end ;;;
  ret (make_response (BText "") HTTP_204_NO_CONTENT []).

(* --------------------------------------------------------------- *)
(** *** The route table *)

Inductive Endpoint : Type :=
| EP_health | EP_index | EP_create_accounts | EP_list_accounts
| EP_read_account | EP_update_account | EP_delete_account.

(** The [@app.route] decorators, in source order. *)
Definition url_map : list (string * list Method * Endpoint) :=
  [ ("/health", [GET], EP_health);
    ("/", [GET], EP_index);
    ("/accounts", [POST], EP_create_accounts);
    ("/accounts", [GET], EP_list_accounts);
    ("/accounts/<id>", [GET], EP_read_account);
    ("/accounts/<int:id>", [PUT], EP_update_account);
    ("/accounts/<int:id>", [DELETE], EP_delete_account) ].

Definition slash : ascii := "/"%char.

(** The segments of a path, split at every slash. *)
Fixpoint split_path (s : string) : list string :=
  match s with
  | EmptyString => [""]
  | String c rest =>
      if Ascii.eqb c slash then "" :: split_path rest
      else match split_path rest with
           | seg :: segs => String c seg :: segs
           | [] => [String c ""]
           end
  end.

(** A segment of a rule: literal text, [<name>] (any non-empty text) or
    [<int:name>] (a non-empty run of digits). *)
Inductive Seg : Type :=
| Static (s : string)
| StrVar
| IntVar.

Definition compile_seg (s : string) : Seg :=
  if String.prefix "<int:" s then IntVar
  else if String.prefix "<" s then StrVar
  else Static s.

Fixpoint match_segs (pat : list Seg) (segs : list string)
  : option (list Account.ident) :=
  match pat, segs with
  | [], [] => Some []
  | Static s :: pat', seg :: segs' =>
      if String.eqb s seg then match_segs pat' segs' else None
  | StrVar :: pat', seg :: segs' =>
      if String.eqb seg "" then None
      else option_map (cons (Account.IdStr seg)) (match_segs pat' segs')
  | IntVar :: pat', seg :: segs' =>
      match Account.int_of_segment seg with
      | Some n => option_map (cons (Account.IdInt n)) (match_segs pat' segs')
      | None => None
      end
  | _, _ => None
  end.

Definition match_rule (rule : string) (p : string) : option (list Account.ident) :=
  match_segs (map compile_seg (split_path rule)) (split_path p).

(** The first rule matching path and method; 405 when some rule matches
    the path under another method only, 404 when none matches it. *)
Fixpoint match_url (rules : list (string * list Method * Endpoint))
         (m : Method) (p : string) (have_match : bool)
  : result (Endpoint * list Account.ident) :=
  match rules with
  | [] =>
      if have_match
      then Raise (HTTPException HTTP_405_METHOD_NOT_ALLOWED "Method Not Allowed")
      else Raise (HTTPException HTTP_404_NOT_FOUND "Not Found")
  | (rule, methods, ep) :: rest =>
      match match_rule rule p with
      | Some args =>
          if existsb (Method_eqb m) methods then Ok (ep, args)
          else match_url rest m p true
      | None => match_url rest m p have_match
      end
  end.

(** Calling the view function of an endpoint with the converted
    arguments of its rule. *)
Definition call_view (ep : Endpoint) (args : list Account.ident)
           (req : Request) : M Response :=
  match ep, args with
  | EP_health, [] => health req
  | EP_index, [] => index req
  | EP_create_accounts, [] => create_accounts req
  | EP_list_accounts, [] => list_accounts req
  | EP_read_account, [Account.IdStr id] => read_account id req
  | EP_update_account, [Account.IdInt id] => update_account id req
  | EP_delete_account, [Account.IdInt id] => delete_account id req
  | _, _ => abort HTTP_500_INTERNAL_SERVER_ERROR "view arguments"
  end.

Definition dispatch_request (req : Request) : M Response :=
  target <- lift (match_url url_map (method req) (path req) false) ;;
  call_view (fst target) (snd target) req.

(** Modelled from the spec: the application's error handlers, which are
    not part of the translated sources.  An aborted request answers with
    the abort's status and message; "validation errors -- malformed or
    incomplete input body -> 400"; any other exception that escapes a
    handler is a server error. *)
Definition handle_exception (e : exn) : Response :=
  match e with
  | HTTPException code description => make_response (BText description) code []
  | DataValidationError msg => make_response (BText msg) HTTP_400_BAD_REQUEST []
  | KeyError _ =>
      make_response (BText "Internal Server Error")
                    HTTP_500_INTERNAL_SERVER_ERROR []
  end.

Definition respond (c : M Response) (d : Account.db) : Response * Account.db :=
  match c d with
  | (Ok r, d') => (r, d')
  | (Raise e, d') => (handle_exception e, d')
  end.

(** One request served against the table. *)
Definition serve (d : Account.db) (req : Request) : Response * Account.db :=
  respond (dispatch_request req) d.

(** A sequence of requests served one after the other. *)
Fixpoint serve_all (d : Account.db) (reqs : list Request)
  : list Response * Account.db :=
  match reqs with
  | [] => ([], d)
  | req :: rest =>
      let (r, d') := serve d req in
      let (rs, d'') := serve_all d' rest in
      (r :: rs, d'')
  end.

End Handlers.


(* ================================================================= *)
(** ** Vocabulary of the statements *)

(** A path segment holds no slash. *)
Fixpoint no_slash (s : string) : bool :=
  match s with
  | EmptyString => true
  | String c rest => negb (Ascii.eqb c slash) && no_slash rest
  end.

(** The text a variable part of a rule can be bound to. *)
Definition valid_segment (s : string) : bool :=
  no_slash s && negb (String.eqb s "").

(** The text holds ASCII characters only. *)
Fixpoint is_ascii (s : string) : bool :=
  match s with
  | EmptyString => true
  | String c rest => (nat_of_ascii c <? 128) && is_ascii rest
  end.

(** An account with identifier [n] is stored in the table. *)
Definition stored (d : Account.db) (n : Z) (a : Account.t) : Prop :=
  In a (Account.rows d) /\ Account.id a = Some n.

(** The table without the records of identifier [n]. *)
Definition without (n : Z) (d : Account.db) : Account.db :=
  Account.mkDb (filter (fun r => negb (Account.has_id n r)) (Account.rows d))
               (Account.next_id d).

(** The wire form of an account with the given identifier and fields. *)
Definition account_json (n : Z) (nm em ad ph ds : string) : Json :=
  JObj [ ("id", JNum n); ("name", JStr nm); ("email", JStr em);
         ("address", JStr ad); ("phone_number", JStr ph);
         ("date_joined", JStr ds) ].

(** The date a payload stands for, as text: the one it carries, today's
    when it carries none. *)
Definition payload_date (today : date) (ds : string) (payload : Json) : Prop :=
  (obj_get "date_joined" payload = Some (JStr ds) /\ fromisoformat ds <> None)
  \/ (obj_get "date_joined" payload = None /\ ds = isoformat today).

(** A listed record carries the fields of a creation payload. *)
Definition same_fields (today : date) (item payload : Json) : Prop :=
  obj_get "name" item = obj_get "name" payload
  /\ obj_get "email" item = obj_get "email" payload
  /\ obj_get "address" item = obj_get "address" payload
  /\ obj_get "phone_number" item = obj_get "phone_number" payload
  /\ obj_get "date_joined" item
     = match obj_get "date_joined" payload with
       | Some v => Some v
       | None => Some (JStr (isoformat today))
       end.

Definition is_create (req : Request) : Prop :=
  method req = POST /\ path req = "/accounts".

(** The payloads of the requests answered with 201. *)
Fixpoint created_payloads (reqs : list Request) (rs : list Response) : list Json :=
  match reqs, rs with
  | req :: reqs', r :: rs' =>
      if status_code r =? HTTP_201_CREATED
      then get_json req :: created_payloads reqs' rs'
      else created_payloads reqs' rs'
  | _, _ => []
  end.

(** *** Sample data *)

Module Sample.

Definition today : date := mkDate 2024 2 29.

Definition ann : Account.t :=
  Account.mk (Some 1%Z) "Ann" "ann@example.org" "1 Main St" "555-0100"
             (mkDate 2020 1 31).

Definition table : Account.db := Account.mkDb [ann] 2.

Definition empty : Account.db := Account.mkDb [] 1.

Definition json_headers : list (string * string) :=
  [("Content-Type", "application/json")].

Definition bob : Json :=
  JObj [ ("name", JStr "Bob"); ("email", JStr "bob@example.org");
         ("address", JStr "2 High St"); ("phone_number", JStr "555-0199");
         ("date_joined", JStr "2021-12-05") ].

Definition incomplete : Json := JObj [("name", JStr "not enough data")].

Definition put_null : Request := mkRequest PUT "/accounts/1" [] JNull.
Definition put_bob : Request := mkRequest PUT "/accounts/1" json_headers bob.
Definition put_absent : Request := mkRequest PUT "/accounts/7" json_headers bob.
Definition get_one : Request := mkRequest GET "/accounts/1" [] JNull.
Definition get_text : Request := mkRequest GET "/accounts/abc" [] JNull.
Definition get_list : Request := mkRequest GET "/accounts" [] JNull.
Definition delete_one : Request := mkRequest DELETE "/accounts/1" [] JNull.
Definition post_html : Request :=
  mkRequest POST "/accounts" [("Content-Type", "test/html")] bob.
Definition post_bob : Request := mkRequest POST "/accounts" json_headers bob.
Definition post_incomplete : Request :=
  mkRequest POST "/accounts" json_headers incomplete.

End Sample.

(** *** The test client and the helper of the test suite *)

Definition BASE_URL : string := "/accounts".

(** [str(n)]: the decimal text of an integer, with a minus sign when it is
    negative. *)
Definition str (n : Z) : string :=
  DecimalString.NilZero.string_of_int (Z.to_int n).

(** [f"{BASE_URL}/{account.id}"] *)
Definition account_url (n : Z) : string := (BASE_URL ++ "/" ++ str n)%string.

Definition json_content_type : list (string * string) :=
  [("Content-Type", "application/json")].

(** [self.client.post(url, json=payload)]: the test client sends the payload
    as JSON and sets the content type accordingly. *)
Definition client_post (today : date) (d : Account.db) (url : string) (payload : Json)
  : Response * Account.db :=
  serve today d (mkRequest POST url json_content_type payload).

(** [self.client.put(url, json=payload)] *)
Definition client_put (today : date) (d : Account.db) (url : string) (payload : Json)
  : Response * Account.db :=
  serve today d (mkRequest PUT url json_content_type payload).

(** [self.client.get(url, content_type="application/json")] *)
Definition client_get (today : date) (d : Account.db) (url : string)
  : Response * Account.db :=
  serve today d (mkRequest GET url json_content_type JNull).

(** [self.client.delete(url)] *)
Definition client_delete (today : date) (d : Account.db) (url : string)
  : Response * Account.db :=
  serve today d (mkRequest DELETE url [] JNull).



(** Every stored record has an identifier below the next one handed out,
    and no two records share one. *)
Definition unique_ids (d : Account.db) : Prop :=
  NoDup (map Account.id (Account.rows d))
  /\ Forall (fun a => exists n, Account.id a = Some n /\ (n < Account.next_id d)%Z)
            (Account.rows d).

(** The value of a decimal numeral read from the left, after [acc]. *)
Fixpoint uint_value (acc : Z) (u : Decimal.uint) : Z :=
  match u with
  | Decimal.Nil => acc
  | Decimal.D0 u' => uint_value (10 * acc + 0) u'
  | Decimal.D1 u' => uint_value (10 * acc + 1) u'
  | Decimal.D2 u' => uint_value (10 * acc + 2) u'
  | Decimal.D3 u' => uint_value (10 * acc + 3) u'
  | Decimal.D4 u' => uint_value (10 * acc + 4) u'
  | Decimal.D5 u' => uint_value (10 * acc + 5) u'
  | Decimal.D6 u' => uint_value (10 * acc + 6) u'
  | Decimal.D7 u' => uint_value (10 * acc + 7) u'
  | Decimal.D8 u' => uint_value (10 * acc + 8) u'
  | Decimal.D9 u' => uint_value (10 * acc + 9) u'
  end.

(* ================================================================= *)
(** ** Routing *)

Section Routing.

Lemma split_path_no_slash (s : string) :
  no_slash s = true -> split_path s = [s].
Proof.
  induction s as [|c s IH]; simpl; intros H.
  - reflexivity.
  - apply andb_prop in H. destruct H as [Hc Hs].
    apply negb_true_iff in Hc. rewrite Hc, (IH Hs). reflexivity.
Qed.

Lemma split_accounts_path (seg : string) :
  no_slash seg = true ->
  split_path ("/accounts/" ++ seg)%string = [""; "accounts"; seg].
Proof.
  intros H. simpl. rewrite (split_path_no_slash seg H). reflexivity.
Qed.

Lemma is_digit_not_slash (c : ascii) :
  is_digit c = true -> Ascii.eqb c slash = false.
Proof.
  intros H.
  destruct (Ascii.eqb_spec c slash) as [->|]; [discriminate H | reflexivity].
Qed.

Lemma digits_value_no_slash (s : string) :
  forall acc n, Account.digits_value acc s = Some n -> no_slash s = true.
Proof.
  induction s as [|c s IH]; simpl; intros acc n H.
  - reflexivity.
  - destruct (is_digit c) eqn:Hc; [|discriminate].
    rewrite (is_digit_not_slash c Hc). simpl. eapply IH; eauto.
Qed.

Lemma int_of_segment_valid (s : string) (n : Z) :
  Account.int_of_segment s = Some n -> valid_segment s = true.
Proof.
  unfold valid_segment.
  destruct s as [|c s]; [discriminate|].
  intros H.
  rewrite (digits_value_no_slash (String c s) 0%Z n H). reflexivity.
Qed.

Lemma valid_segment_inv (s : string) :
  valid_segment s = true -> no_slash s = true /\ String.eqb s "" = false.
Proof.
  unfold valid_segment. intros H. apply andb_prop in H.
  destruct H as [H1 H2]. apply negb_true_iff in H2. auto.
Qed.

Ltac route_through seg H :=
  destruct (valid_segment_inv seg H) as [Hslash Hempty];
  unfold url_map, match_url, match_rule;
  rewrite (split_accounts_path seg Hslash);
  cbn; rewrite ?Hempty.

Lemma route_read (seg : string) :
  valid_segment seg = true ->
  match_url url_map GET ("/accounts/" ++ seg) false
  = Ok (EP_read_account, [Account.IdStr seg]).
Proof.
  intros H. route_through seg H. reflexivity.
Qed.

Lemma route_update (seg : string) (n : Z) :
  Account.int_of_segment seg = Some n ->
  match_url url_map PUT ("/accounts/" ++ seg) false
  = Ok (EP_update_account, [Account.IdInt n]).
Proof.
  intros H. pose proof (int_of_segment_valid seg n H) as Hv.
  route_through seg Hv. rewrite H. reflexivity.
Qed.

Lemma route_delete (seg : string) (n : Z) :
  Account.int_of_segment seg = Some n ->
  match_url url_map DELETE ("/accounts/" ++ seg) false
  = Ok (EP_delete_account, [Account.IdInt n]).
Proof.
  intros H. pose proof (int_of_segment_valid seg n H) as Hv.
  route_through seg Hv. rewrite H. reflexivity.
Qed.

Lemma route_create :
  match_url url_map POST "/accounts" false = Ok (EP_create_accounts, []).
Proof. reflexivity. Qed.

Lemma route_list :
  match_url url_map GET "/accounts" false = Ok (EP_list_accounts, []).
Proof. reflexivity. Qed.

(** With a segment the [int] converter refuses, the rules of
    [update_account] and [delete_account] do not match: the request is
    refused with 405 because the rule of [read_account] matches the path. *)
Lemma route_not_int (seg : string) (m : Method) :
  valid_segment seg = true ->
  Account.int_of_segment seg = None ->
  m <> GET ->
  match_url url_map m ("/accounts/" ++ seg) false
  = Raise (HTTPException HTTP_405_METHOD_NOT_ALLOWED "Method Not Allowed").
Proof.
  intros H Hn Hm. route_through seg H. rewrite Hn.
  destruct m; try reflexivity. contradiction Hm; reflexivity.
Qed.

Lemma split_path_not_nil (s : string) : split_path s <> [].
Proof.
  destruct s as [|c s]; simpl; [discriminate|].
  destruct (Ascii.eqb c slash); [discriminate|].
  destruct (split_path s); discriminate.
Qed.

Lemma split_path_single (s x : string) : split_path s = [x] -> x = s.
Proof.
  revert x. induction s as [|c s IH]; simpl; intros x H.
  - congruence.
  - destruct (Ascii.eqb c slash).
    + injection H as _ H. destruct (split_path_not_nil s H).
    + destruct (split_path s) as [|seg segs] eqn:E;
        [destruct (split_path_not_nil s E)|].
      injection H as <- ->. rewrite (IH seg eq_refl). reflexivity.
Qed.

(** Whatever follows [/accounts/], a text the [int] converter refuses is
    routed to no view under PUT or DELETE. *)
Lemma route_refuses_non_int (seg : string) (m : Method) :
  Account.int_of_segment seg = None ->
  m = PUT \/ m = DELETE ->
  exists code description,
    match_url url_map m ("/accounts/" ++ seg) false
    = Raise (HTTPException code description).
Proof.
  intros Hn Hm.
  unfold url_map, match_url, match_rule.
  change (split_path ("/accounts/" ++ seg)%string)
    with ("" :: "accounts" :: split_path seg).
  destruct (split_path seg) as [|x [|y rest]] eqn:E.
  - destruct (split_path_not_nil seg E).
  - apply split_path_single in E. subst x.
    cbn. rewrite Hn.
    destruct (String.eqb seg ""), Hm as [-> | ->]; cbn; eauto.
  - cbn.
    destruct (String.eqb x ""), (Account.int_of_segment x), Hm as [-> | ->];
      cbn; eauto.
Qed.

End Routing.

(* ================================================================= *)
(** ** Dates on the wire *)

Section Dates.

Lemma div_mod_digit (k q r : nat) :
  r < k -> (k * q + r) / k = q /\ (k * q + r) mod k = r.
Proof.
  intros Hr. split.
  - symmetry. apply (Nat.div_unique _ _ _ r); [exact Hr | reflexivity].
  - symmetry. apply (Nat.mod_unique _ _ q); [exact Hr | reflexivity].
Qed.

Lemma two_digits (a b : nat) :
  a < 10 -> b < 10 ->
  (10 * a + b) / 10 mod 10 = a /\ (10 * a + b) mod 10 = b.
Proof.
  intros Ha Hb. destruct (div_mod_digit 10 a b Hb) as [-> ->].
  rewrite Nat.mod_small by exact Ha. auto.
Qed.

Lemma four_digits (a b c d : nat) :
  a < 10 -> b < 10 -> c < 10 -> d < 10 ->
  let y := 1000 * a + 100 * b + 10 * c + d in
  y / 1000 mod 10 = a /\ y / 100 mod 10 = b
  /\ y / 10 mod 10 = c /\ y mod 10 = d.
Proof.
  intros Ha Hb Hc Hd y. subst y.
  replace (1000 * a + 100 * b + 10 * c + d)
    with (1000 * a + (100 * b + 10 * c + d)) at 1 by lia.
  replace (1000 * a + 100 * b + 10 * c + d)
    with (100 * (10 * a + b) + (10 * c + d)) at 1 by lia.
  replace (1000 * a + 100 * b + 10 * c + d)
    with (10 * (10 * (10 * a + b) + c) + d) by lia.
  destruct (div_mod_digit 1000 a (100 * b + 10 * c + d)) as [-> _]; [lia|].
  destruct (div_mod_digit 100 (10 * a + b) (10 * c + d)) as [-> _]; [lia|].
  destruct (div_mod_digit 10 (10 * (10 * a + b) + c) d Hd) as [-> ->].
  destruct (div_mod_digit 10 (10 * a + b) c Hc) as [_ ->].
  destruct (div_mod_digit 10 a b Hb) as [_ ->].
  rewrite Nat.mod_small by exact Ha. auto.
Qed.

Lemma digit_char_val (c : ascii) :
  is_digit c = true -> digit_char (digit_val c) = c /\ digit_val c < 10.
Proof.
  destruct c as [[] [] [] [] [] [] [] []]; vm_compute; intros H;
    solve [discriminate H | split; [reflexivity | lia]].
Qed.

Lemma some_eq {A : Type} (x y : A) : Some x = Some y -> x = y.
Proof. congruence. Qed.

(** Printing a parsed date gives back the text it was parsed from. *)
Lemma isoformat_fromisoformat (s : string) (d : date) :
  fromisoformat s = Some d -> isoformat d = s.
Proof.
  unfold fromisoformat. intros H.
  rewrite <- (string_of_list_ascii_of_string s).
  destruct (list_ascii_of_string s)
    as [|y1 [|y2 [|y3 [|y4 [|s1 [|m1 [|m2 [|s2 [|d1 [|d2 [|x l]]]]]]]]]]];
    try discriminate H.
  destruct (forallb is_digit [y1; y2; y3; y4; m1; m2; d1; d2]
            && Ascii.eqb s1 dash && Ascii.eqb s2 dash) eqn:E;
    [|discriminate H].
  apply andb_prop in E. destruct E as [E Es2].
  apply andb_prop in E. destruct E as [E Es1].
  apply Ascii.eqb_eq in Es1, Es2. subst s1 s2.
  cbn [forallb] in E.
  repeat (apply andb_prop in E; let Hd := fresh "Hd" in destruct E as [Hd E]).
  clear E.
  match type of H with
  | (if ?v then _ else _) = _ => destruct v; [|discriminate H]
  end.
  apply some_eq in H. subst d.
  destruct (digit_char_val _ Hd) as [K1 L1].
  destruct (digit_char_val _ Hd0) as [K2 L2].
  destruct (digit_char_val _ Hd1) as [K3 L3].
  destruct (digit_char_val _ Hd2) as [K4 L4].
  destruct (digit_char_val _ Hd3) as [K5 L5].
  destruct (digit_char_val _ Hd4) as [K6 L6].
  destruct (digit_char_val _ Hd5) as [K7 L7].
  destruct (digit_char_val _ Hd6) as [K8 L8].
  unfold isoformat, year, month, day.
  destruct (four_digits _ _ _ _ L1 L2 L3 L4) as (-> & -> & -> & ->).
  destruct (two_digits _ _ L5 L6) as [-> ->].
  destruct (two_digits _ _ L7 L8) as [-> ->].
  rewrite K1, K2, K3, K4, K5, K6, K7, K8. reflexivity.
Qed.

End Dates.

(* ================================================================= *)
(** ** The account table *)

Section Store.

Lemma has_id_true (n : Z) (a : Account.t) :
  Account.has_id n a = true <-> Account.id a = Some n.
Proof.
  unfold Account.has_id. destruct (Account.id a) as [m|].
  - rewrite Z.eqb_eq. split; congruence.
  - split; discriminate.
Qed.

Lemma same_id_has_id (n : Z) (a r : Account.t) :
  Account.id a = Some n -> Account.same_id r a = Account.has_id n r.
Proof.
  unfold Account.same_id, Account.has_id. intros ->.
  destruct (Account.id r); reflexivity.
Qed.

Lemma find_stored (d : Account.db) (n : Z) (a : Account.t) :
  Account.find d (Account.IdInt n) = Some a -> stored d n a.
Proof.
  unfold Account.find, stored. cbn [Account.key_of]. intros H.
  apply find_some in H. destruct H as [Hin Hid].
  apply has_id_true in Hid. auto.
Qed.

Lemma stored_find (d : Account.db) (n : Z) (a : Account.t) :
  stored d n a -> exists a', Account.find d (Account.IdInt n) = Some a'.
Proof.
  unfold Account.find, stored. cbn [Account.key_of]. intros [Hin Hid].
  destruct (List.find (Account.has_id n) (Account.rows d)) as [a'|] eqn:E.
  - eauto.
  - apply (find_none _ _ E) in Hin. apply has_id_true in Hid. congruence.
Qed.

Lemma find_none_not_stored (d : Account.db) (n : Z) :
  Account.find d (Account.IdInt n) = None <-> (forall a, ~ stored d n a).
Proof.
  split.
  - intros H a Ha. destruct (stored_find d n a Ha) as [a' Ha']. congruence.
  - intros H. destruct (Account.find d (Account.IdInt n)) as [a|] eqn:E;
      [|reflexivity].
    destruct (H a (find_stored d n a E)).
Qed.

(** A textual identifier is looked up as the integer it denotes. *)
Lemma find_segment (d : Account.db) (seg : string) (n : Z) :
  Account.int_of_segment seg = Some n ->
  Account.find d (Account.IdStr seg) = Account.find d (Account.IdInt n).
Proof. unfold Account.find. cbn [Account.key_of]. intros ->. reflexivity. Qed.

Lemma find_not_int (d : Account.db) (seg : string) :
  Account.int_of_segment seg = None ->
  Account.find d (Account.IdStr seg) = None.
Proof. unfold Account.find. cbn [Account.key_of]. intros ->. reflexivity. Qed.

Lemma find_filter_other (n m : Z) (l : list Account.t) :
  m <> n ->
  List.find (Account.has_id m)
            (filter (fun r => negb (Account.has_id n r)) l)
  = List.find (Account.has_id m) l.
Proof.
  intros Hmn. induction l as [|r l IH]; simpl; [reflexivity|].
  destruct (Account.has_id n r) eqn:En; simpl.
  - destruct (Account.has_id m r) eqn:Em; [|exact IH].
    apply has_id_true in En, Em. congruence.
  - rewrite IH. reflexivity.
Qed.

Lemma find_filter_same (n : Z) (l : list Account.t) :
  List.find (Account.has_id n)
            (filter (fun r => negb (Account.has_id n r)) l) = None.
Proof.
  induction l as [|r l IH]; simpl; [reflexivity|].
  destruct (Account.has_id n r) eqn:En; simpl; [exact IH|].
  rewrite En. exact IH.
Qed.

Lemma filter_absent (n : Z) (l : list Account.t) :
  List.find (Account.has_id n) l = None ->
  filter (fun r => negb (Account.has_id n r)) l = l.
Proof.
  induction l as [|r l IH]; simpl; [reflexivity|].
  destruct (Account.has_id n r); [discriminate|].
  intros H. simpl. rewrite (IH H). reflexivity.
Qed.

(** Deleting the record found under [n] leaves the table without [n]. *)
Lemma delete_found (d : Account.db) (n : Z) (a : Account.t) :
  Account.find d (Account.IdInt n) = Some a ->
  Account.delete d a = without n d.
Proof.
  intros H. apply find_stored in H. destruct H as [_ Hid].
  unfold Account.delete, without. f_equal.
  apply filter_ext. intros r. rewrite (same_id_has_id n a r Hid). reflexivity.
Qed.

Lemma without_absent (d : Account.db) (n : Z) :
  Account.find d (Account.IdInt n) = None -> without n d = d.
Proof.
  unfold Account.find, without. cbn [Account.key_of]. intros H.
  rewrite (filter_absent n _ H). destruct d; reflexivity.
Qed.

(** "[find(id)] after [delete(id)] returns not-found", and the other
    identifiers are found as before. *)
Lemma find_without (d : Account.db) (n m : Z) :
  Account.find (without n d) (Account.IdInt m)
  = if Z.eqb m n then None else Account.find d (Account.IdInt m).
Proof.
  unfold Account.find, without. cbn [Account.key_of Account.rows].
  destruct (Z.eqb_spec m n) as [->|Hne].
  - apply find_filter_same.
  - apply find_filter_other. exact Hne.
Qed.

(** After an update the record found under its identifier is the new one. *)
Lemma find_update (d : Account.db) (n : Z) (a a' : Account.t) :
  Account.find d (Account.IdInt n) = Some a ->
  Account.id a' = Some n ->
  Account.find (Account.update d a') (Account.IdInt n) = Some a'.
Proof.
  unfold Account.find, Account.update. cbn [Account.key_of Account.rows].
  intros H Hid. revert H.
  induction (Account.rows d) as [|r l IH]; simpl; [discriminate|].
  rewrite (same_id_has_id n a' r Hid).
  destruct (Account.has_id n r) eqn:En.
  - intros _. apply has_id_true in Hid. rewrite Hid. reflexivity.
  - rewrite En. exact IH.
Qed.

Lemma find_update_other (d : Account.db) (n m : Z) (a' : Account.t) :
  Account.id a' = Some n -> m <> n ->
  Account.find (Account.update d a') (Account.IdInt m)
  = Account.find d (Account.IdInt m).
Proof.
  unfold Account.find, Account.update. cbn [Account.key_of Account.rows].
  intros Hid Hmn.
  induction (Account.rows d) as [|r l IH]; simpl; [reflexivity|].
  rewrite (same_id_has_id n a' r Hid).
  destruct (Account.has_id n r) eqn:En.
  - destruct (Account.has_id m a') eqn:Em.
    + apply has_id_true in Em. congruence.
    + destruct (Account.has_id m r) eqn:Emr; [|exact IH].
      apply has_id_true in En, Emr. congruence.
  - rewrite IH. reflexivity.
Qed.

End Store.

(* ================================================================= *)
(** ** Deserialization *)

Section Deserialize.

Variable today : date.

Lemma required_ok (k : string) (data : Json) (s : string) :
  Account.required k data = Ok s <-> obj_get k data = Some (JStr s).
Proof.
  unfold Account.required.
  destruct (obj_get k data) as [[| | | | |]|]; split; congruence.
Qed.

Lemma joined_ok (data : Json) (dj : date) :
  Account.joined today data = Ok dj ->
  payload_date today (isoformat dj) data.
Proof.
  unfold Account.joined, payload_date.
  destruct (obj_get "date_joined" data) as [[| | |s| |]|]; try discriminate.
  - destruct (fromisoformat s) as [d'|] eqn:E; [|discriminate].
    intros H. assert (d' = dj) by congruence. subst d'.
    rewrite (isoformat_fromisoformat s dj E). left. split; congruence.
  - intros H. right. split; congruence.
Qed.

Lemma joined_payload_date (data : Json) (ds : string) :
  payload_date today ds data ->
  exists dj, Account.joined today data = Ok dj /\ isoformat dj = ds.
Proof.
  unfold Account.joined, payload_date. intros [[-> Hp] | [-> ->]].
  - destruct (fromisoformat ds) as [dj|] eqn:E; [|congruence].
    exists dj. split; [reflexivity | exact (isoformat_fromisoformat ds dj E)].
  - eauto.
Qed.

Lemma required_raises (k : string) (data : Json) (e : exn) :
  Account.required k data = Raise e -> exists msg, e = DataValidationError msg.
Proof.
  unfold Account.required.
  destruct (obj_get k data) as [[| | | | |]|]; intros H;
    try discriminate H; injection H as <-; eauto.
Qed.

Lemma joined_raises (data : Json) (e : exn) :
  Account.joined today data = Raise e -> exists msg, e = DataValidationError msg.
Proof.
  unfold Account.joined.
  destruct (obj_get "date_joined" data) as [[| | |s| |]|]; intros H;
    try discriminate H; try (injection H as <-; eauto).
  destruct (fromisoformat s); [discriminate H | injection H as <-; eauto].
Qed.

(** A failure raises the validation error and no other exception. *)
Lemma deserialize_raises (a : Account.t) (data : Json) (e : exn) :
  Account.deserialize today a data = Raise e ->
  exists msg, e = DataValidationError msg.
Proof.
  unfold Account.deserialize.
  destruct (Account.required "name" data) eqn:E1;
    [|intros H; injection H as <-; eapply required_raises; eauto].
  destruct (Account.required "email" data) eqn:E2;
    [|intros H; injection H as <-; eapply required_raises; eauto].
  destruct (Account.required "address" data) eqn:E3;
    [|intros H; injection H as <-; eapply required_raises; eauto].
  destruct (Account.required "phone_number" data) eqn:E4;
    [|intros H; injection H as <-; eapply required_raises; eauto].
  destruct (Account.joined today data) eqn:E5;
    [discriminate|intros H; injection H as <-; eapply joined_raises; eauto].
Qed.

(** Whether a body deserializes does not depend on the account it is
    read into. *)
Lemma deserialize_raise_any (a b : Account.t) (data : Json) (e : exn) :
  Account.deserialize today a data = Raise e ->
  Account.deserialize today b data = Raise e.
Proof.
  unfold Account.deserialize.
  destruct (Account.required "name" data); [|auto].
  destruct (Account.required "email" data); [|auto].
  destruct (Account.required "address" data); [|auto].
  destruct (Account.required "phone_number" data); [|auto].
  destruct (Account.joined today data); [discriminate|auto].
Qed.

Lemma deserialize_null (a : Account.t) :
  Account.deserialize today a JNull
  = Raise (DataValidationError "Invalid Account: missing name").
Proof. reflexivity. Qed.

(** A body that deserializes carries the four texts, and the date read
    from it prints as the date of the payload. *)
Lemma deserialize_ok (a a' : Account.t) (data : Json) :
  Account.deserialize today a data = Ok a' ->
  Account.id a' = Account.id a
  /\ obj_get "name" data = Some (JStr (Account.name a'))
  /\ obj_get "email" data = Some (JStr (Account.email a'))
  /\ obj_get "address" data = Some (JStr (Account.address a'))
  /\ obj_get "phone_number" data = Some (JStr (Account.phone_number a'))
  /\ payload_date today (isoformat (Account.date_joined a')) data.
Proof.
  unfold Account.deserialize.
  destruct (Account.required "name" data) as [nm|] eqn:E1; [|discriminate].
  destruct (Account.required "email" data) as [em|] eqn:E2; [|discriminate].
  destruct (Account.required "address" data) as [ad|] eqn:E3; [|discriminate].
  destruct (Account.required "phone_number" data) as [ph|] eqn:E4;
    [|discriminate].
  destruct (Account.joined today data) as [dj|] eqn:E5; [|discriminate].
  intros H. apply required_ok in E1, E2, E3, E4. apply joined_ok in E5.
  assert (a' = Account.mk (Account.id a) nm em ad ph dj) by congruence.
  subst a'. cbn. auto 10.
Qed.

(** A payload with the four texts and a date deserializes. *)
Lemma deserialize_payload (a : Account.t) (data : Json)
      (nm em ad ph ds : string) :
  obj_get "name" data = Some (JStr nm) ->
  obj_get "email" data = Some (JStr em) ->
  obj_get "address" data = Some (JStr ad) ->
  obj_get "phone_number" data = Some (JStr ph) ->
  payload_date today ds data ->
  exists dj,
    Account.deserialize today a data = Ok (Account.mk (Account.id a) nm em ad ph dj)
    /\ isoformat dj = ds.
Proof.
  intros H1 H2 H3 H4 H5.
  apply required_ok in H1, H2, H3, H4.
  destruct (joined_payload_date data ds H5) as (dj & Hj & Hds).
  exists dj. unfold Account.deserialize.
  rewrite H1, H2, H3, H4, Hj. auto.
Qed.

End Deserialize.

(* ================================================================= *)
(** ** The handlers, step by step *)

Section HandlerSteps.

Variable today : date.

Lemma serve_create (d : Account.db) (req : Request) :
  is_create req ->
  serve today d req = respond (create_accounts today req) d.
Proof.
  intros [Hm Hp]. unfold serve, dispatch_request, respond, bind, lift.
  rewrite Hm, Hp, route_create. reflexivity.
Qed.

Lemma serve_list (d : Account.db) (req : Request) :
  method req = GET -> path req = "/accounts" ->
  serve today d req = respond (list_accounts req) d.
Proof.
  intros Hm Hp. unfold serve, dispatch_request, respond, bind, lift.
  rewrite Hm, Hp, route_list. reflexivity.
Qed.

Lemma serve_read (d : Account.db) (req : Request) (seg : string) :
  method req = GET -> path req = ("/accounts/" ++ seg)%string ->
  valid_segment seg = true ->
  serve today d req = respond (read_account seg req) d.
Proof.
  intros Hm Hp Hs. unfold serve, dispatch_request, respond, bind, lift.
  rewrite Hm, Hp, (route_read seg Hs). reflexivity.
Qed.

Lemma serve_update (d : Account.db) (req : Request) (seg : string) (n : Z) :
  method req = PUT -> path req = ("/accounts/" ++ seg)%string ->
  Account.int_of_segment seg = Some n ->
  serve today d req = respond (update_account today n req) d.
Proof.
  intros Hm Hp Hs. unfold serve, dispatch_request, respond, bind, lift.
  rewrite Hm, Hp, (route_update seg n Hs). reflexivity.
Qed.

Lemma serve_delete (d : Account.db) (req : Request) (seg : string) (n : Z) :
  method req = DELETE -> path req = ("/accounts/" ++ seg)%string ->
  Account.int_of_segment seg = Some n ->
  serve today d req = respond (delete_account n req) d.
Proof.
  intros Hm Hp Hs. unfold serve, dispatch_request, respond, bind, lift.
  rewrite Hm, Hp, (route_delete seg n Hs). reflexivity.
Qed.

(** [check_content_type] passes on the exact media type only. *)
Lemma check_content_type_cases (req : Request) (media_type : string) (d : Account.db) :
  (headers_get "Content-Type" (headers req) = Some media_type
   /\ media_type <> ""
   /\ check_content_type req media_type d = (Ok tt, d))
  \/ ((headers_get "Content-Type" (headers req) <> Some media_type
       \/ media_type = "")
      /\ check_content_type req media_type d
         = (Raise (HTTPException HTTP_415_UNSUPPORTED_MEDIA_TYPE
                     ("Content-Type must be " ++ media_type)%string), d)).
Proof.
  unfold check_content_type, truthy, abort, raise, ret.
  destruct (headers_get "Content-Type" (headers req)) as [ct|].
  - destruct (String.eqb_spec ct "") as [->|Hne]; cbn [negb andb].
    + right. split; [|reflexivity].
      destruct (String.eqb_spec media_type "") as [->|Hm]; [auto|].
      left. congruence.
    + destruct (String.eqb_spec ct media_type) as [->|Hm].
      * left. auto.
      * right. split; [left; congruence | reflexivity].
  - right. split; [left; discriminate | reflexivity].
Qed.

(** The three outcomes of [create_accounts]. *)
Lemma create_accounts_cases (req : Request) (d : Account.db) :
  (headers_get "Content-Type" (headers req) <> Some "application/json"
   /\ create_accounts today req d
      = (Raise (HTTPException HTTP_415_UNSUPPORTED_MEDIA_TYPE
                  "Content-Type must be application/json"), d))
  \/ (headers_get "Content-Type" (headers req) = Some "application/json"
      /\ exists msg,
           Account.deserialize today (Account.new today) (get_json req)
           = Raise (DataValidationError msg)
           /\ create_accounts today req d = (Raise (DataValidationError msg), d))
  \/ (headers_get "Content-Type" (headers req) = Some "application/json"
      /\ exists a,
           Account.deserialize today (Account.new today) (get_json req) = Ok a
           /\ create_accounts today req d
              = (Ok (mkResponse HTTP_201_CREATED
                       (BJson (Account.serialize
                                 (Account.set_id (Account.next_id d) a)))
                       [("Location", "/")]),
                 Account.mkDb
                   (Account.rows d ++ [Account.set_id (Account.next_id d) a])
                   (Account.next_id d + 1))).
Proof.
  unfold create_accounts, bind.
  destruct (check_content_type_cases req "application/json" d)
    as [(Hh & _ & ->) | ([Hh | Hh] & ->)]; [| left; auto | discriminate Hh].
  right. unfold lift.
  destruct (Account.deserialize today (Account.new today) (get_json req))
    as [a|e] eqn:E.
  - right. split; [exact Hh|]. exists a. split; reflexivity.
  - left. split; [exact Hh|].
    destruct (deserialize_raises today _ _ _ E) as [msg ->]. eauto.
Qed.

(** When the looked-up account is absent, whatever a handler would do with
    it after the existence check does not run: the outcome is the abort for
    every continuation [k]. *)
Lemma existence_check_first (i : Account.ident) (code : nat) (msg : string)
      (k : Account.t -> M Response) (d : Account.db) :
  Account.find d i = None ->
  (account <- Account_find i ;;
   match account with
   | None => abort code msg
   | Some account => k account
   end) d
  = (Raise (HTTPException code msg), d).
Proof.
  intros H. unfold bind, Account_find. rewrite H. reflexivity.
Qed.

Lemma update_account_missing (n : Z) (req : Request) (d : Account.db) :
  Account.find d (Account.IdInt n) = None ->
  update_account today n req d
  = (Raise (HTTPException HTTP_404_NOT_FOUND "Account could not be found"), d).
Proof.
  intros H. unfold update_account.
  exact (existence_check_first _ _ _ _ d H).
Qed.

Lemma update_account_invalid (n : Z) (req : Request) (d : Account.db)
      (a : Account.t) (e : exn) :
  Account.find d (Account.IdInt n) = Some a ->
  Account.deserialize today a (get_json req) = Raise e ->
  update_account today n req d = (Raise e, d).
Proof.
  intros H He. unfold update_account, bind, Account_find, try_except, lift.
  rewrite H, He.
  destruct (deserialize_raises today _ _ _ He) as [msg ->]. reflexivity.
Qed.

Lemma update_account_valid (n : Z) (req : Request) (d : Account.db)
      (a a' : Account.t) :
  Account.find d (Account.IdInt n) = Some a ->
  Account.deserialize today a (get_json req) = Ok a' ->
  update_account today n req d
  = (Ok (mkResponse HTTP_200_OK (BJson (Account.serialize a')) []),
     Account.update d a').
Proof.
  intros H He. unfold update_account, bind, Account_find, try_except, lift.
  rewrite H, He. reflexivity.
Qed.

Lemma read_account_found (seg : string) (req : Request) (d : Account.db)
      (a : Account.t) :
  Account.find d (Account.IdStr seg) = Some a ->
  read_account seg req d
  = (Ok (mkResponse HTTP_200_OK (BJson (Account.serialize a)) []), d).
Proof.
  intros H. unfold read_account, bind, Account_find. rewrite H. reflexivity.
Qed.

Lemma read_account_missing (seg : string) (req : Request) (d : Account.db) :
  Account.find d (Account.IdStr seg) = None ->
  read_account seg req d
  = (Raise (HTTPException HTTP_404_NOT_FOUND
              ("Account " ++ seg ++ " not found")%string), d).
Proof.
  intros H. unfold read_account, bind, Account_find. rewrite H. reflexivity.
Qed.

Lemma delete_account_run (n : Z) (req : Request) (d : Account.db) :
  delete_account n req d
  = (Ok (mkResponse HTTP_204_NO_CONTENT (BText "") []), without n d).
Proof.
  unfold delete_account, bind, Account_find, Account_delete, ret.
  destruct (Account.find d (Account.IdInt n)) as [a|] eqn:E.
  - rewrite (delete_found d n a E). reflexivity.
  - rewrite (without_absent d n E). reflexivity.
Qed.

(** The guard of [update_account] turns a [KeyError] of the guarded step
    into the 400 abort; a validation error passes through it and is
    answered with 400 by the application's handler. *)
Lemma guarded_failure_is_400 {A : Type} (c : M A) (k : A -> M Response)
      (e : exn) (d d' : Account.db) :
  c d = (Raise e, d') ->
  is_KeyError e = true \/ (exists msg, e = DataValidationError msg) ->
  respond (bind (try_except c is_KeyError
                            (abort HTTP_400_BAD_REQUEST "Account Data invalid"))
                k) d
  = (mkResponse HTTP_400_BAD_REQUEST
                (BText match e with
                       | DataValidationError msg => msg
                       | _ => "Account Data invalid"
                       end) [], d').
Proof.
  intros Hc He. unfold respond, bind, try_except. rewrite Hc.
  destruct He as [He | [msg ->]].
  - rewrite He. destruct e; try discriminate He. reflexivity.
  - reflexivity.
Qed.

End HandlerSteps.

(* ================================================================= *)
(** ** Properties of the service *)

Section Service.

Variable today : date.

Lemma stored_without (d : Account.db) (n m : Z) (a : Account.t) :
  stored (without n d) m a <-> stored d m a /\ m <> n.
Proof.
  unfold stored, without. cbn [Account.rows]. rewrite filter_In.
  rewrite negb_true_iff. split.
  - intros [[Hin Hn] Hid]. repeat split; auto.
    intros ->. apply has_id_true in Hid. congruence.
  - intros [[Hin Hid] Hne]. repeat split; auto.
    destruct (Account.has_id n a) eqn:E; [|reflexivity].
    apply has_id_true in E. congruence.
Qed.

(** C1: a PUT to [/accounts/{id}] of a stored account whose body fails
    deserialization, a JSON [null] body included, is answered with 400. *)
Theorem put_invalid_body_is_400
        (d : Account.db) (req : Request) (seg : string) (n : Z) (a : Account.t) :
  method req = PUT ->
  path req = ("/accounts/" ++ seg)%string ->
  Account.int_of_segment seg = Some n ->
  stored d n a ->
  (exists a0 e, Account.deserialize today a0 (get_json req) = Raise e)
  \/ get_json req = JNull ->
  status_code (fst (serve today d req)) = HTTP_400_BAD_REQUEST.
Proof.
  intros Hm Hp Hs Ha Hbody.
  destruct (stored_find d n a Ha) as [a' Hfind].
  assert (exists e, Account.deserialize today a' (get_json req) = Raise e)
    as [e He].
  { destruct Hbody as [(a0 & e & He) | Hnull].
    - exists e. exact (deserialize_raise_any today a0 a' _ e He).
    - rewrite Hnull, deserialize_null. eauto. }
  rewrite (serve_update today d req seg n Hm Hp Hs). unfold respond.
  rewrite (update_account_invalid today n req d a' e Hfind He).
  destruct (deserialize_raises today _ _ _ He) as [msg ->]. reflexivity.
Qed.

(** C2: a POST to [/accounts] whose Content-Type header is not exactly
    [application/json], or is absent, is answered with 415 whatever the
    body. *)
Theorem post_other_content_type_is_415 (d : Account.db) (req : Request) :
  method req = POST ->
  path req = "/accounts" ->
  headers_get "Content-Type" (headers req) <> Some "application/json" ->
  status_code (fst (serve today d req)) = HTTP_415_UNSUPPORTED_MEDIA_TYPE.
Proof.
  intros Hm Hp Hh.
  rewrite (serve_create today d req (conj Hm Hp)). unfold respond.
  destruct (create_accounts_cases today req d)
    as [[_ ->] | [[Hh' _] | [Hh' _]]]; [reflexivity | | ]; contradiction.
Qed.

(** C3: a DELETE to [/accounts/{id}] with an integer id is answered with
    204 and an empty body; afterwards no account has that identifier, the
    other accounts are as before, and when none had it the table is
    untouched. *)
Theorem delete_is_204 (d : Account.db) (req : Request) (seg : string) (n : Z) :
  method req = DELETE ->
  path req = ("/accounts/" ++ seg)%string ->
  Account.int_of_segment seg = Some n ->
  fst (serve today d req) = mkResponse HTTP_204_NO_CONTENT (BText "") []
  /\ (forall a, ~ stored (snd (serve today d req)) n a)
  /\ (forall m a, m <> n -> stored (snd (serve today d req)) m a <-> stored d m a)
  /\ ((forall a, ~ stored d n a) -> snd (serve today d req) = d).
Proof.
  intros Hm Hp Hs.
  rewrite (serve_delete today d req seg n Hm Hp Hs). unfold respond.
  rewrite delete_account_run. cbn [fst snd].
  split; [reflexivity|]. split; [|split].
  - intros a Ha. apply stored_without in Ha. destruct Ha as [_ Hne]. auto.
  - intros m a Hne. rewrite stored_without. tauto.
  - intros Hnone. apply without_absent. apply find_none_not_stored. exact Hnone.
Qed.

(** C4: a PUT to [/accounts/{id}] when no account has that identifier is
    answered with 404 and leaves the table as it was. *)
Theorem put_missing_is_404
        (d : Account.db) (req : Request) (seg : string) (n : Z) :
  method req = PUT ->
  path req = ("/accounts/" ++ seg)%string ->
  Account.int_of_segment seg = Some n ->
  (forall a, ~ stored d n a) ->
  status_code (fst (serve today d req)) = HTTP_404_NOT_FOUND
  /\ snd (serve today d req) = d.
Proof.
  intros Hm Hp Hs Hnone. apply find_none_not_stored in Hnone.
  rewrite (serve_update today d req seg n Hm Hp Hs). unfold respond.
  rewrite (update_account_missing today n req d Hnone). split; reflexivity.
Qed.

(** C5: a GET to [/accounts/{id}] is answered with 200 and the serialized
    account when an account with that identifier is stored, and with 404
    otherwise; the table is not changed. *)
Theorem get_account_200_or_404 (d : Account.db) (req : Request) (seg : string) :
  method req = GET ->
  path req = ("/accounts/" ++ seg)%string ->
  valid_segment seg = true ->
  (forall n a,
      Account.int_of_segment seg = Some n -> stored d n a ->
      exists a',
        stored d n a'
        /\ serve today d req
           = (mkResponse HTTP_200_OK (BJson (Account.serialize a')) [], d))
  /\ ((forall n a, Account.int_of_segment seg = Some n -> ~ stored d n a) ->
      status_code (fst (serve today d req)) = HTTP_404_NOT_FOUND
      /\ snd (serve today d req) = d).
Proof.
  intros Hm Hp Hv.
  rewrite (serve_read today d req seg Hm Hp Hv). unfold respond. split.
  - intros n a Hs Ha. destruct (stored_find d n a Ha) as [a' Hfind].
    exists a'. split; [exact (find_stored d n a' Hfind)|].
    rewrite <- (find_segment d seg n Hs) in Hfind.
    rewrite (read_account_found seg req d a' Hfind). reflexivity.
  - intros Hnone.
    assert (Account.find d (Account.IdStr seg) = None) as Hfind.
    { destruct (Account.int_of_segment seg) as [n|] eqn:Hs.
      - rewrite (find_segment d seg n Hs). apply find_none_not_stored.
        intros a. exact (Hnone n a eq_refl).
      - exact (find_not_int d seg Hs). }
    rewrite (read_account_missing seg req d Hfind). split; reflexivity.
Qed.

(** C6: a PUT to [/accounts/{id}] of a stored account with a valid payload
    succeeds and overwrites name, email, address, phone number and date
    with the payload's values under the same identifier: a later GET of
    that id returns the new values with the original id. *)
Theorem put_then_get_returns_update
        (d : Account.db) (put get : Request) (seg : string) (n : Z)
        (a : Account.t) (nm em ad ph ds : string) (later : date) :
  method put = PUT ->
  path put = ("/accounts/" ++ seg)%string ->
  method get = GET ->
  path get = ("/accounts/" ++ seg)%string ->
  Account.int_of_segment seg = Some n ->
  stored d n a ->
  obj_get "name" (get_json put) = Some (JStr nm) ->
  obj_get "email" (get_json put) = Some (JStr em) ->
  obj_get "address" (get_json put) = Some (JStr ad) ->
  obj_get "phone_number" (get_json put) = Some (JStr ph) ->
  payload_date today ds (get_json put) ->
  fst (serve today d put)
  = mkResponse HTTP_200_OK (BJson (account_json n nm em ad ph ds)) []
  /\ fst (serve later (snd (serve today d put)) get)
     = mkResponse HTTP_200_OK (BJson (account_json n nm em ad ph ds)) [].
Proof.
  intros Hm Hp Hgm Hgp Hs Ha H1 H2 H3 H4 H5.
  destruct (stored_find d n a Ha) as [a0 Hfind].
  destruct (find_stored d n a0 Hfind) as [_ Hid].
  destruct (deserialize_payload today a0 _ nm em ad ph ds H1 H2 H3 H4 H5)
    as (dj & Hde & Hds).
  rewrite Hid in Hde.
  rewrite (serve_update today d put seg n Hm Hp Hs). unfold respond.
  rewrite (update_account_valid today n put d a0 _ Hfind Hde).
  cbn [fst snd].
  assert (Account.serialize (Account.mk (Some n) nm em ad ph dj)
          = account_json n nm em ad ph ds) as Hser.
  { unfold Account.serialize, account_json.
    cbn [Account.id Account.name Account.email Account.address
         Account.phone_number Account.date_joined].
    rewrite Hds. reflexivity. }
  rewrite Hser. split; [reflexivity|].
  rewrite (serve_read later _ get seg Hgm Hgp (int_of_segment_valid seg n Hs)).
  unfold respond.
  rewrite (read_account_found seg get _ (Account.mk (Some n) nm em ad ph dj)).
  - rewrite Hser. reflexivity.
  - rewrite (find_segment _ seg n Hs).
    apply (find_update d n a0); [exact Hfind | reflexivity].
Qed.

(** One creation request either leaves the table alone and is not answered
    with 201, or is answered with 201 and appends the deserialized account
    under a fresh identifier. *)
Lemma create_step (d : Account.db) (req : Request) :
  is_create req ->
  (status_code (fst (serve today d req)) <> HTTP_201_CREATED
   /\ (status_code (fst (serve today d req)) = HTTP_415_UNSUPPORTED_MEDIA_TYPE
       \/ status_code (fst (serve today d req)) = HTTP_400_BAD_REQUEST)
   /\ snd (serve today d req) = d)
  \/ (status_code (fst (serve today d req)) = HTTP_201_CREATED
      /\ exists a,
           Account.deserialize today (Account.new today) (get_json req) = Ok a
           /\ snd (serve today d req)
              = Account.mkDb
                  (Account.rows d ++ [Account.set_id (Account.next_id d) a])
                  (Account.next_id d + 1)).
Proof.
  intros Hc. rewrite (serve_create today d req Hc). unfold respond.
  destruct (create_accounts_cases today req d)
    as [[_ ->] | [(_ & msg & _ & ->) | (_ & a & Ha & ->)]]; cbn.
  - left. repeat split; [discriminate | auto].
  - left. repeat split; [discriminate | auto].
  - right. split; [reflexivity|]. exists a. auto.
Qed.

Lemma serialize_same_fields (k : Z) (a : Account.t) (payload : Json) :
  Account.deserialize today (Account.new today) payload = Ok a ->
  same_fields today (Account.serialize (Account.set_id k a)) payload.
Proof.
  intros H. apply deserialize_ok in H.
  destruct H as (_ & H1 & H2 & H3 & H4 & H5).
  unfold same_fields. rewrite H1, H2, H3, H4.
  change (obj_get "date_joined" (Account.serialize (Account.set_id k a)))
    with (Some (JStr (isoformat (Account.date_joined a)))).
  repeat split.
  destruct H5 as [[-> _] | [-> ->]]; reflexivity.
Qed.

(** Creation requests served in a row append one record per 201, each
    carrying the fields of its payload. *)
Lemma serve_all_creates (reqs : list Request) :
  forall d,
    Forall is_create reqs ->
    exists added,
      Account.rows (snd (serve_all today d reqs)) = Account.rows d ++ added
      /\ Forall2 (same_fields today) (map Account.serialize added)
                 (created_payloads reqs (fst (serve_all today d reqs))).
Proof.
  induction reqs as [|req reqs IH]; intros d Hall.
  - exists []. cbn. rewrite app_nil_r. split; [reflexivity | constructor].
  - inversion Hall as [|? ? Hreq Hrest]; subst.
    cbn [serve_all].
    destruct (serve today d req) as [r d1] eqn:E1.
    destruct (IH d1 Hrest) as (added & Hrows & Hfields).
    destruct (serve_all today d1 reqs) as [rs d2] eqn:E2.
    cbn [fst snd] in *. cbn [created_payloads].
    destruct (create_step d req Hreq) as [(Hne & _ & Hd) | (Heq & a & Ha & Hd)];
      rewrite E1 in *; cbn [fst snd] in *.
    + apply Nat.eqb_neq in Hne. rewrite Hne. subst d1. eauto.
    + rewrite Heq. cbn [Nat.eqb].
      exists (Account.set_id (Account.next_id d) a :: added).
      subst d1. cbn [Account.rows] in Hrows.
      rewrite Hrows, <- app_assoc. split; [reflexivity|].
      cbn [map]. constructor; [|exact Hfields].
      exact (serialize_same_fields _ a _ Ha).
Qed.

(** C7: from an empty table, after creation requests of which N are
    answered with 201, a GET to [/accounts] is answered with 200 and an
    array of exactly N serialized accounts that carry, up to order, the
    fields of the N payloads; on an empty table the array is empty. *)
Theorem list_after_creations
        (d : Account.db) (reqs : list Request) (get : Request) (later : date) :
  Account.rows d = [] ->
  Forall is_create reqs ->
  method get = GET ->
  path get = "/accounts" ->
  let created := created_payloads reqs (fst (serve_all today d reqs)) in
  (exists items,
      fst (serve later (snd (serve_all today d reqs)) get)
      = mkResponse HTTP_200_OK (BJson (JArr items)) []
      /\ List.length items = List.length created
      /\ exists items',
           Permutation items items'
           /\ Forall2 (same_fields today) items' created)
  /\ fst (serve later d get) = mkResponse HTTP_200_OK (BJson (JArr [])) [].
Proof.
  intros Hempty Hall Hm Hp created. split.
  - destruct (serve_all_creates reqs d Hall) as (added & Hrows & Hfields).
    rewrite Hempty in Hrows. cbn [app] in Hrows.
    exists (map Account.serialize added).
    rewrite (serve_list later _ get Hm Hp).
    unfold respond, list_accounts, bind, Account_all, ret, Account.all.
    rewrite Hrows. cbn [fst]. split; [reflexivity|]. split.
    + exact (Forall2_length Hfields).
    + exists (map Account.serialize added).
      split; [apply Permutation_refl | exact Hfields].
  - rewrite (serve_list later d get Hm Hp).
    unfold respond, list_accounts, bind, Account_all, ret, Account.all.
    rewrite Hempty. reflexivity.
Qed.

(** C8: a POST to [/accounts] answered with 415 or with 400 creates no
    account: the table is exactly as before. *)
Theorem failed_post_keeps_table (d : Account.db) (req : Request) :
  method req = POST ->
  path req = "/accounts" ->
  status_code (fst (serve today d req)) = HTTP_415_UNSUPPORTED_MEDIA_TYPE
  \/ status_code (fst (serve today d req)) = HTTP_400_BAD_REQUEST ->
  snd (serve today d req) = d.
Proof.
  intros Hm Hp Hstatus.
  destruct (create_step d req (conj Hm Hp)) as [(_ & _ & Hd) | (Heq & _)].
  - exact Hd.
  - rewrite Heq in Hstatus. destruct Hstatus; discriminate.
Qed.

(** C9: in the PUT handler the existence check comes first: when no
    account has the identifier the answer is the 404 of the existence
    check and the table is untouched, whatever the body; the answer is the
    same for every body, so the body is not looked at. *)
Theorem put_missing_ignores_body
        (d : Account.db) (req : Request) (seg : string) (n : Z) :
  method req = PUT ->
  path req = ("/accounts/" ++ seg)%string ->
  Account.int_of_segment seg = Some n ->
  (forall a, ~ stored d n a) ->
  serve today d req
  = (mkResponse HTTP_404_NOT_FOUND (BText "Account could not be found") [], d)
  /\ forall body,
       serve today d (mkRequest PUT (path req) (headers req) body)
       = serve today d req.
Proof.
  intros Hm Hp Hs Hnone. apply find_none_not_stored in Hnone.
  assert (forall r, method r = PUT -> path r = ("/accounts/" ++ seg)%string ->
                    serve today d r
                    = (mkResponse HTTP_404_NOT_FOUND
                                  (BText "Account could not be found") [], d))
    as Hall.
  { intros r Hrm Hrp.
    rewrite (serve_update today d r seg n Hrm Hrp Hs). unfold respond.
    rewrite (update_account_missing today n r d Hnone). reflexivity. }
  split; [exact (Hall req Hm Hp)|].
  intros body. rewrite (Hall req Hm Hp). apply Hall; [reflexivity | exact Hp].
Qed.

(** C10: the id segment of GET [/accounts/{id}] is not restricted to
    integers: a segment that is not an integer reaches [read_account] as
    text and the answer is 404 when no account matches it; under PUT and
    DELETE such a segment, taken among ASCII texts, is routed to no view
    at all. *)
Theorem non_integer_id_routing (seg : string) :
  Account.int_of_segment seg = None ->
  (valid_segment seg = true ->
   match_url url_map GET ("/accounts/" ++ seg) false
   = Ok (EP_read_account, [Account.IdStr seg])
   /\ forall d req,
        method req = GET ->
        path req = ("/accounts/" ++ seg)%string ->
        Account.find d (Account.IdStr seg) = None ->
        status_code (fst (serve today d req)) = HTTP_404_NOT_FOUND)
  /\ (is_ascii seg = true ->
      forall m,
        m = PUT \/ m = DELETE ->
        exists code description,
          match_url url_map m ("/accounts/" ++ seg) false
          = Raise (HTTPException code description)).
Proof.
  intros Hnot. split.
  - intros Hv. split; [exact (route_read seg Hv)|].
    intros d req Hm Hp Hfind.
    rewrite (serve_read today d req seg Hm Hp Hv). unfold respond.
    rewrite (read_account_missing seg req d Hfind). reflexivity.
  - intros _ m Hm. exact (route_refuses_non_int seg m Hnot Hm).
Qed.

End Service.

(* ================================================================= *)
(** ** The service on sample requests *)

Section Samples.

Import Sample.

Example sample_health :
  fst (serve today table (mkRequest GET "/health" [] JNull))
  = mkResponse 200 (BJson (JObj [("status", JStr "OK")])) [].
Proof. reflexivity. Qed.

Example sample_method_not_allowed :
  status_code (fst (serve today table (mkRequest POST "/" [] JNull))) = 405.
Proof. reflexivity. Qed.

Example sample_bad_request :
  serve today table post_incomplete
  = (mkResponse 400 (BText "Invalid Account: missing email") [], table).
Proof. reflexivity. Qed.

Example sample_unsupported_media_type :
  serve today table post_html
  = (mkResponse 415 (BText "Content-Type must be application/json") [], table).
Proof. reflexivity. Qed.

Example sample_create :
  serve today empty post_bob
  = (mkResponse 201
       (BJson (account_json 1 "Bob" "bob@example.org" "2 High St" "555-0199"
                            "2021-12-05"))
       [("Location", "/")],
     Account.mkDb [Account.mk (Some 1%Z) "Bob" "bob@example.org" "2 High St"
                              "555-0199" (mkDate 2021 12 5)] 2).
Proof. vm_compute. reflexivity. Qed.

Example sample_read_zero :
  status_code (fst (serve today table (mkRequest GET "/accounts/0" [] JNull)))
  = 404.
Proof. reflexivity. Qed.

Example sample_put_text_id :
  serve today table (mkRequest PUT "/accounts/abc" json_headers bob)
  = (mkResponse 405 (BText "Method Not Allowed") [], table).
Proof. reflexivity. Qed.

Example sample_delete_then_read :
  status_code (fst (serve today (snd (serve today table delete_one)) get_one))
  = 404.
Proof. reflexivity. Qed.

End Samples.

(* ================================================================= *)
(** ** Instances of the properties *)

Lemma put_invalid_body_is_400_witness :
  stored Sample.table 1 Sample.ann
  /\ get_json Sample.put_null = JNull
  /\ status_code (fst (serve Sample.today Sample.table Sample.put_null))
     = HTTP_400_BAD_REQUEST.
Proof.
  assert (stored Sample.table 1 Sample.ann) as Hst.
  { split; [left; reflexivity | reflexivity]. }
  split; [exact Hst|]. split; [reflexivity|].
  apply (put_invalid_body_is_400 Sample.today Sample.table Sample.put_null
                                 "1" 1%Z Sample.ann);
    [reflexivity | reflexivity | reflexivity | exact Hst | right; reflexivity].
Defined.

Lemma post_other_content_type_is_415_witness :
  headers_get "Content-Type" (headers Sample.post_html) = Some "test/html"
  /\ status_code (fst (serve Sample.today Sample.table Sample.post_html))
     = HTTP_415_UNSUPPORTED_MEDIA_TYPE.
Proof.
  split; [reflexivity|].
  apply (post_other_content_type_is_415 Sample.today Sample.table Sample.post_html);
    [reflexivity | reflexivity | discriminate].
Defined.

Lemma delete_is_204_witness :
  fst (serve Sample.today Sample.table Sample.delete_one)
  = mkResponse HTTP_204_NO_CONTENT (BText "") []
  /\ forall a, ~ stored (snd (serve Sample.today Sample.table Sample.delete_one))
                        1 a.
Proof.
  destruct (delete_is_204 Sample.today Sample.table Sample.delete_one "1" 1%Z)
    as (Hr & Hgone & _); [reflexivity | reflexivity | reflexivity |].
  split; [exact Hr | exact Hgone].
Defined.

Lemma put_missing_is_404_witness :
  status_code (fst (serve Sample.today Sample.table Sample.put_absent))
  = HTTP_404_NOT_FOUND
  /\ snd (serve Sample.today Sample.table Sample.put_absent) = Sample.table.
Proof.
  apply (put_missing_is_404 Sample.today Sample.table Sample.put_absent "7" 7%Z);
    [reflexivity | reflexivity | reflexivity |].
  intros a [[<- | []] Hid]. discriminate Hid.
Defined.

Lemma get_account_200_or_404_witness :
  exists a',
    stored Sample.table 1 a'
    /\ serve Sample.today Sample.table Sample.get_one
       = (mkResponse HTTP_200_OK (BJson (Account.serialize a')) [], Sample.table).
Proof.
  destruct (get_account_200_or_404 Sample.today Sample.table Sample.get_one "1")
    as [Hfound _]; [reflexivity | reflexivity | reflexivity |].
  apply (Hfound 1%Z Sample.ann); [reflexivity|].
  split; [left; reflexivity | reflexivity].
Defined.

Lemma put_then_get_returns_update_witness :
  fst (serve Sample.today
             (snd (serve Sample.today Sample.table Sample.put_bob))
             Sample.get_one)
  = mkResponse HTTP_200_OK
      (BJson (account_json 1 "Bob" "bob@example.org" "2 High St" "555-0199"
                           "2021-12-05")) [].
Proof.
  apply (put_then_get_returns_update
           Sample.today Sample.table Sample.put_bob Sample.get_one "1" 1%Z
           Sample.ann "Bob" "bob@example.org" "2 High St" "555-0199"
           "2021-12-05" Sample.today);
    try reflexivity.
  - split; [left; reflexivity | reflexivity].
  - left. split; [reflexivity|]. vm_compute. discriminate.
Defined.

Lemma list_after_creations_witness :
  exists items,
    fst (serve Sample.today
               (snd (serve_all Sample.today Sample.empty
                               [Sample.post_bob; Sample.post_html;
                                Sample.post_incomplete; Sample.post_bob]))
               Sample.get_list)
    = mkResponse HTTP_200_OK (BJson (JArr items)) []
    /\ List.length items = 2.
Proof.
  destruct (list_after_creations
              Sample.today Sample.empty
              [Sample.post_bob; Sample.post_html;
               Sample.post_incomplete; Sample.post_bob]
              Sample.get_list Sample.today)
    as [(items & Hresp & Hlen & _) _];
    [reflexivity | repeat constructor | reflexivity | reflexivity |].
  exists items. split; [exact Hresp | exact Hlen].
Defined.

Lemma failed_post_keeps_table_witness :
  status_code (fst (serve Sample.today Sample.table Sample.post_incomplete))
  = HTTP_400_BAD_REQUEST
  /\ snd (serve Sample.today Sample.table Sample.post_incomplete) = Sample.table.
Proof.
  split; [reflexivity|].
  apply (failed_post_keeps_table Sample.today Sample.table Sample.post_incomplete);
    [reflexivity | reflexivity | right; reflexivity].
Defined.

Lemma put_missing_ignores_body_witness :
  serve Sample.today Sample.table Sample.put_absent
  = (mkResponse HTTP_404_NOT_FOUND (BText "Account could not be found") [],
     Sample.table)
  /\ serve Sample.today Sample.table
           (mkRequest PUT "/accounts/7" Sample.json_headers JNull)
     = serve Sample.today Sample.table Sample.put_absent.
Proof.
  destruct (put_missing_ignores_body
              Sample.today Sample.table Sample.put_absent "7" 7%Z)
    as [Hresp Hbody]; [reflexivity | reflexivity | reflexivity | |].
  - intros a [[<- | []] Hid]. discriminate Hid.
  - split; [exact Hresp | exact (Hbody JNull)].
Defined.

Lemma non_integer_id_routing_witness :
  match_url url_map GET "/accounts/abc" false
  = Ok (EP_read_account, [Account.IdStr "abc"])
  /\ status_code (fst (serve Sample.today Sample.table Sample.get_text))
     = HTTP_404_NOT_FOUND
  /\ exists code description,
       match_url url_map PUT "/accounts/abc" false
       = Raise (HTTPException code description).
Proof.
  destruct (non_integer_id_routing Sample.today "abc" eq_refl) as [Hget Hput].
  destruct (Hget eq_refl) as [Hroute Hread].
  split; [exact Hroute|]. split.
  - apply (Hread Sample.table Sample.get_text); reflexivity.
  - apply (Hput eq_refl PUT). left. reflexivity.
Defined.

(* ================================================================= *)
(** ** Identifiers in URLs *)

Section Urls.

Lemma digits_value_uint (u : Decimal.uint) :
  forall acc,
    Account.digits_value acc (DecimalString.NilEmpty.string_of_uint u)
    = Some (uint_value acc u).
Proof.
  induction u; intros acc; cbn [DecimalString.NilEmpty.string_of_uint uint_value];
    [reflexivity | ..];
    cbn [Account.digits_value]; rewrite <- IHu; reflexivity.
Qed.

Lemma uint_value_pos (u : Decimal.uint) :
  forall p, uint_value (Z.pos p) u = Z.pos (Pos.of_uint_acc u p).
Proof.
  induction u; intros p; cbn [uint_value Pos.of_uint_acc];
    [reflexivity | ..]; rewrite <- IHu; f_equal; lia.
Qed.

Lemma uint_value_zero (u : Decimal.uint) : uint_value 0 u = Z.of_uint u.
Proof.
  unfold Z.of_uint.
  induction u; cbn [uint_value Pos.of_uint]; [reflexivity | exact IHu | ..];
    cbn [Z.mul Z.add]; rewrite uint_value_pos; reflexivity.
Qed.

Lemma int_of_segment_str (n : Z) :
  (0 <= n)%Z -> Account.int_of_segment (str n) = Some n.
Proof.
  intros Hn. unfold str.
  pose proof (DecimalZ.of_to n) as Hof.
  destruct n as [|p|p]; [reflexivity | | lia].
  cbn [Z.to_int DecimalString.NilZero.string_of_int] in *.
  cbn [Z.of_int] in Hof. rewrite <- uint_value_zero in Hof.
  destruct (Pos.to_uint p) as [|u|u|u|u|u|u|u|u|u|u] eqn:E;
    [discriminate Hof | ..];
    cbn [DecimalString.NilZero.string_of_uint
         DecimalString.NilEmpty.string_of_uint Account.int_of_segment];
    rewrite <- Hof;
    match goal with
    | |- Account.digits_value _ ?s = Some (uint_value _ ?v) =>
        exact (digits_value_uint v 0%Z)
    end.
Qed.

Lemma int_of_segment_str_negative (n : Z) :
  (n < 0)%Z -> Account.int_of_segment (str n) = None.
Proof.
  intros Hn. destruct n as [|p|p]; [lia | lia | reflexivity].
Qed.

End Urls.

(* ================================================================= *)
(** ** Serialized accounts as payloads *)

Section Payloads.

Variable today : date.

Lemma digit_char_digit (k : nat) :
  k < 10 -> is_digit (digit_char k) = true /\ digit_val (digit_char k) = k.
Proof.
  intros Hk.
  do 10 (destruct k as [|k]; [split; reflexivity|]). lia.
Qed.

Lemma four_digits_back (y : nat) :
  y < 10 * 1000 ->
  1000 * (y / 1000 mod 10) + 100 * (y / 100 mod 10)
  + 10 * (y / 10 mod 10) + y mod 10 = y.
Proof.
  intros Hy.
  pose proof (Nat.div_mod_eq y 10) as E1.
  pose proof (Nat.div_mod_eq (y / 10) 10) as E2.
  pose proof (Nat.div_mod_eq (y / 100) 10) as E3.
  replace (y / 10 / 10) with (y / 100) in E2
    by (rewrite Nat.Div0.div_div; reflexivity).
  replace (y / 100 / 10) with (y / 1000) in E3
    by (rewrite Nat.Div0.div_div; reflexivity).
  assert (y / 1000 < 10) as Hq by (apply Nat.Div0.div_lt_upper_bound; lia).
  rewrite (Nat.mod_small (y / 1000) 10 Hq). lia.
Qed.

Lemma two_digits_back (m : nat) :
  m < 100 -> 10 * (m / 10 mod 10) + m mod 10 = m.
Proof.
  intros Hm.
  pose proof (Nat.div_mod_eq m 10) as E1.
  assert (m / 10 < 10) as Hq by (apply Nat.Div0.div_lt_upper_bound; lia).
  rewrite (Nat.mod_small (m / 10) 10 Hq). lia.
Qed.

Lemma days_in_month_bound (y m : nat) : days_in_month y m <= 31.
Proof.
  unfold days_in_month.
  do 13 (destruct m as [|m]; [try destruct (is_leap y); lia|]). lia.
Qed.

(** Parsing the printed form of a date that exists gives the date back. *)
Lemma fromisoformat_isoformat (d : date) :
  valid_date d = true -> fromisoformat (isoformat d) = Some d.
Proof.
  intros Hv. pose proof Hv as Hv'. unfold valid_date in Hv'.
  repeat (apply andb_prop in Hv'; destruct Hv' as [Hv' ?]).
  assert (year d < 10 * 1000) as Hy by (apply Nat.ltb_lt; assumption).
  assert (month d < 100) as Hm
      by (assert (month d <= 12) by (apply Nat.leb_le; assumption); lia).
  assert (day d < 100) as Hd.
  { assert (day d <= days_in_month (year d) (month d))
      by (apply Nat.leb_le; assumption).
    pose proof (days_in_month_bound (year d) (month d)). lia. }
  unfold fromisoformat, isoformat.
  rewrite list_ascii_of_string_of_list_ascii.
  assert (forall x, x mod 10 < 10) as Hlt
      by (intros x; apply Nat.mod_upper_bound; discriminate).
  cbn [forallb].
  repeat match goal with
         | |- context [is_digit (digit_char (?x mod 10))] =>
             rewrite (proj1 (digit_char_digit (x mod 10) (Hlt x)))
         | |- context [digit_val (digit_char (?x mod 10))] =>
             rewrite (proj2 (digit_char_digit (x mod 10) (Hlt x)))
         end.
  rewrite Ascii.eqb_refl. cbn [andb].
  rewrite (four_digits_back (year d) Hy), (two_digits_back (month d) Hm),
    (two_digits_back (day d) Hd).
  destruct d as [y m dd]. cbn [year month day] in *. rewrite Hv. reflexivity.
Qed.

(** The serialized form of an account deserializes to its fields; the
    identifier of the account read into is kept. *)
Lemma deserialize_serialize (a b : Account.t) :
  valid_date (Account.date_joined a) = true ->
  Account.deserialize today b (Account.serialize a)
  = Ok (Account.mk (Account.id b) (Account.name a) (Account.email a)
                   (Account.address a) (Account.phone_number a)
                   (Account.date_joined a)).
Proof.
  intros Hv. unfold Account.deserialize.
  change (Account.required "name" (Account.serialize a))
    with (@Ok string (Account.name a)).
  change (Account.required "email" (Account.serialize a))
    with (@Ok string (Account.email a)).
  change (Account.required "address" (Account.serialize a))
    with (@Ok string (Account.address a)).
  change (Account.required "phone_number" (Account.serialize a))
    with (@Ok string (Account.phone_number a)).
  unfold Account.joined.
  change (obj_get "date_joined" (Account.serialize a))
    with (Some (JStr (isoformat (Account.date_joined a)))).
  cbv beta iota. rewrite (fromisoformat_isoformat _ Hv). reflexivity.
Qed.

End Payloads.

(* ================================================================= *)
(** ** What a request can do to the table *)

Section Effects.

Variable today : date.

Lemma match_url_sound (rules : list (string * list Method * Endpoint))
      (m : Method) (p : string) (ep : Endpoint) (args : list Account.ident) :
  forall have_match,
    match_url rules m p have_match = Ok (ep, args) ->
    exists rule methods,
      In (rule, methods, ep) rules
      /\ existsb (Method_eqb m) methods = true
      /\ match_rule rule p = Some args.
Proof.
  induction rules as [|[[rule methods] ep'] rest IH]; intros have_match H.
  - cbn in H. destruct have_match; discriminate H.
  - cbn [match_url] in H.
    destruct (match_rule rule p) as [args'|] eqn:Er.
    + destruct (existsb (Method_eqb m) methods) eqn:Em.
      * injection H as <- <-. exists rule, methods.
        split; [left; reflexivity | auto].
      * destruct (IH _ H) as (r & ms & Hin & Hm & Hr).
        exists r, ms. split; [right; exact Hin | auto].
    + destruct (IH _ H) as (r & ms & Hin & Hm & Hr).
      exists r, ms. split; [right; exact Hin | auto].
Qed.

(** The view a request is routed to is one its method is registered for. *)
Lemma routed_method (m : Method) (p : string) (ep : Endpoint)
      (args : list Account.ident) :
  match_url url_map m p false = Ok (ep, args) ->
  match ep with
  | EP_create_accounts => m = POST
  | EP_update_account => m = PUT
  | EP_delete_account => m = DELETE
  | _ => m = GET
  end.
Proof.
  intros H. apply match_url_sound in H.
  destruct H as (rule & methods & Hin & Hm & _).
  unfold url_map in Hin. cbn [In] in Hin.
  repeat (destruct Hin as [Hin | Hin];
          [injection Hin as <- <- <-; destruct m; cbn in Hm;
           solve [reflexivity | discriminate Hm] |]).
  destruct Hin.
Qed.

(** The outcomes of [update_account]. *)
Lemma update_account_cases (n : Z) (req : Request) (d : Account.db) :
  (exists e, update_account today n req d = (Raise e, d))
  \/ (exists a a',
         Account.find d (Account.IdInt n) = Some a
         /\ Account.deserialize today a (get_json req) = Ok a'
         /\ Account.id a' = Some n
         /\ update_account today n req d
            = (Ok (mkResponse HTTP_200_OK (BJson (Account.serialize a')) []),
               Account.update d a')).
Proof.
  destruct (Account.find d (Account.IdInt n)) as [a|] eqn:Hfind.
  - destruct (Account.deserialize today a (get_json req)) as [a'|e] eqn:He.
    + right. exists a, a'. repeat split; auto.
      * destruct (deserialize_ok today a a' _ He) as [Hid _].
        destruct (find_stored d n a Hfind) as [_ Hn]. congruence.
      * exact (update_account_valid today n req d a a' Hfind He).
    + left. exists e. exact (update_account_invalid today n req d a e Hfind He).
  - left. eexists. exact (update_account_missing today n req d Hfind).
Qed.

(** Every request either leaves the table as it was, or is a POST answered
    201 that appends one record under the next identifier, or a PUT
    answered 200 that replaces the record of one identifier, or a DELETE
    answered 204 that removes the records of one identifier. *)
Lemma serve_effect (d : Account.db) (req : Request) :
  snd (serve today d req) = d
  \/ (method req = POST
      /\ status_code (fst (serve today d req)) = HTTP_201_CREATED
      /\ exists a,
           snd (serve today d req)
           = Account.mkDb
               (Account.rows d ++ [Account.set_id (Account.next_id d) a])
               (Account.next_id d + 1))
  \/ (method req = PUT
      /\ status_code (fst (serve today d req)) = HTTP_200_OK
      /\ exists n a a',
           Account.find d (Account.IdInt n) = Some a
           /\ Account.id a' = Some n
           /\ snd (serve today d req) = Account.update d a')
  \/ (method req = DELETE
      /\ status_code (fst (serve today d req)) = HTTP_204_NO_CONTENT
      /\ exists n, snd (serve today d req) = without n d).
Proof.
  unfold serve, dispatch_request, respond, bind, lift.
  destruct (match_url url_map (method req) (path req) false)
    as [[ep args]|e] eqn:Hroute; [|left; reflexivity].
  pose proof (routed_method _ _ _ _ Hroute) as Hm.
  cbn [fst snd].
  destruct ep; cbn [call_view].
  - destruct args; left; reflexivity.
  - destruct args; left; reflexivity.
  - destruct args; [|left; reflexivity].
    destruct (create_accounts_cases today req d)
      as [[_ ->] | [(_ & msg & _ & ->) | (_ & a & _ & ->)]];
      [left; reflexivity | left; reflexivity |].
    right. left. cbn [fst snd]. split; [exact Hm|].
    split; [reflexivity | eauto].
  - destruct args; left; reflexivity.
  - destruct args as [|[n|s] [|]]; try (left; reflexivity).
    unfold read_account, bind, Account_find.
    destruct (Account.find d (Account.IdStr s)); left; reflexivity.
  - destruct args as [|[n|s] [|]]; try (left; reflexivity).
    destruct (update_account_cases n req d)
      as [[e ->] | (a & a' & Hfind & _ & Hid & ->)]; [left; reflexivity|].
    right. right. left. cbn [fst snd]. split; [exact Hm|].
    split; [reflexivity|]. exists n, a, a'. auto.
  - destruct args as [|[n|s] [|]]; try (left; reflexivity).
    rewrite delete_account_run.
    right. right. right. cbn [fst snd]. split; [exact Hm|].
    split; [reflexivity | eauto].
Qed.

End Effects.

(* ================================================================= *)
(** ** Further properties of the handlers *)

Section Further.

Variable today : date.

(** X1: a GET to [/health] is answered 200 with [{"status": "OK"}]
    whatever the headers, the body and the table, and leaves the table as
    it was. *)
Theorem health_always_ok (d : Account.db) (req : Request) :
  method req = GET ->
  path req = "/health" ->
  serve today d req
  = (mkResponse HTTP_200_OK (BJson (JObj [("status", JStr "OK")])) [], d).
Proof.
  intros Hm Hp. unfold serve, dispatch_request, respond, bind, lift.
  rewrite Hm, Hp. reflexivity.
Qed.

(** X2: a GET to [/] is answered 200 with the name and the version of the
    service and leaves the table as it was. *)
Theorem index_always_ok (d : Account.db) (req : Request) :
  method req = GET ->
  path req = "/" ->
  serve today d req
  = (mkResponse HTTP_200_OK
       (BJson (JObj [("name", JStr "Account REST API Service");
                     ("version", JStr "1.0")])) [], d).
Proof.
  intros Hm Hp. unfold serve, dispatch_request, respond, bind, lift.
  rewrite Hm, Hp. reflexivity.
Qed.

(** X3: a method no route of the path names is refused with 405 and the
    table is left alone: POST, PUT, DELETE and PATCH on [/] and [/health],
    PUT, DELETE and PATCH on [/accounts], POST and PATCH on
    [/accounts/{id}]. *)
Theorem unlisted_method_is_405 (d : Account.db) (req : Request) :
  ((path req = "/" \/ path req = "/health")
   /\ In (method req) [POST; PUT; DELETE; PATCH])
  \/ (path req = "/accounts" /\ In (method req) [PUT; DELETE; PATCH])
  \/ (exists seg,
         path req = ("/accounts/" ++ seg)%string
         /\ valid_segment seg = true
         /\ In (method req) [POST; PATCH]) ->
  serve today d req
  = (mkResponse HTTP_405_METHOD_NOT_ALLOWED (BText "Method Not Allowed") [], d).
Proof.
  unfold serve, dispatch_request, respond, bind, lift. cbn [In].
  intros [[[Hp | Hp] Hm] | [(Hp & Hm) | (seg & Hp & Hv & Hm)]]; rewrite Hp.
  - destruct Hm as [<- | [<- | [<- | [<- | []]]]]; reflexivity.
  - destruct Hm as [<- | [<- | [<- | [<- | []]]]]; reflexivity.
  - destruct Hm as [<- | [<- | [<- | []]]]; reflexivity.
  - destruct (valid_segment_inv seg Hv) as [Hslash Hempty].
    unfold url_map, match_url, match_rule.
    rewrite (split_accounts_path seg Hslash). cbn. rewrite Hempty.
    destruct Hm as [<- | [<- | []]];
      destruct (Account.int_of_segment seg); reflexivity.
Qed.

(** X4: [check_content_type] never touches the table; it passes exactly
    when the Content-Type header is present and equal to a non-empty media
    type, and aborts with 415 and the expected media type in the message
    otherwise. *)
Theorem check_content_type_passes_iff
        (req : Request) (media_type : string) (d : Account.db) :
  snd (check_content_type req media_type d) = d
  /\ (fst (check_content_type req media_type d) = Ok tt
      <-> headers_get "Content-Type" (headers req) = Some media_type
          /\ media_type <> "")
  /\ (fst (check_content_type req media_type d) <> Ok tt ->
      fst (check_content_type req media_type d)
      = Raise (HTTPException HTTP_415_UNSUPPORTED_MEDIA_TYPE
                 ("Content-Type must be " ++ media_type)%string)).
Proof.
  destruct (check_content_type_cases req media_type d)
    as [(Hh & Hne & ->) | (Hno & ->)]; cbn [fst snd].
  - split; [reflexivity|]. split; [tauto|]. intros H. contradiction H; reflexivity.
  - split; [reflexivity|]. split; [|reflexivity].
    split; [discriminate|]. intros [Hh Hne]. destruct Hno; contradiction.
Qed.

(** X5: a POST to [/accounts] with the JSON content type and a payload
    holding the four texts and a date is answered 201 with a [Location]
    header of [/] and the account under the next identifier of the table,
    whatever [id] the payload carries; the table gains that one record. *)
Theorem create_valid_is_201
        (d : Account.db) (req : Request) (nm em ad ph ds : string) :
  method req = POST ->
  path req = "/accounts" ->
  headers_get "Content-Type" (headers req) = Some "application/json" ->
  obj_get "name" (get_json req) = Some (JStr nm) ->
  obj_get "email" (get_json req) = Some (JStr em) ->
  obj_get "address" (get_json req) = Some (JStr ad) ->
  obj_get "phone_number" (get_json req) = Some (JStr ph) ->
  payload_date today ds (get_json req) ->
  exists dj,
    isoformat dj = ds
    /\ serve today d req
       = (mkResponse HTTP_201_CREATED
            (BJson (account_json (Account.next_id d) nm em ad ph ds))
            [("Location", "/")],
          Account.mkDb
            (Account.rows d
             ++ [Account.mk (Some (Account.next_id d)) nm em ad ph dj])
            (Account.next_id d + 1)).
Proof.
  intros Hm Hp Hh H1 H2 H3 H4 H5.
  destruct (deserialize_payload today (Account.new today) _ nm em ad ph ds
                                H1 H2 H3 H4 H5) as (dj & Hde & Hds).
  exists dj. split; [exact Hds|].
  rewrite (serve_create today d req (conj Hm Hp)). unfold respond.
  destruct (create_accounts_cases today req d)
    as [[Hno _] | [(_ & msg & He & _) | (_ & a & Ha & ->)]];
    [contradiction | congruence |].
  assert (a = Account.mk None nm em ad ph dj) by (cbn in Hde; congruence).
  subst a. unfold Account.serialize, account_json, Account.set_id.
  cbn [Account.id Account.name Account.email Account.address
       Account.phone_number Account.date_joined].
  rewrite Hds. reflexivity.
Qed.

(** X6: no GET request, whatever its path, changes the table. *)
Theorem get_never_writes (d : Account.db) (req : Request) :
  method req = GET -> snd (serve today d req) = d.
Proof.
  intros Hm.
  destruct (serve_effect today d req)
    as [H | [(Hm' & _) | [(Hm' & _) | (Hm' & _)]]];
    [exact H | congruence | congruence | congruence].
Qed.

(** X7: a request answered with an error status (400 or above) has not
    changed the table, whatever its method and path. *)
Theorem error_answer_keeps_table (d : Account.db) (req : Request) :
  400 <= status_code (fst (serve today d req)) ->
  snd (serve today d req) = d.
Proof.
  intros Hs.
  destruct (serve_effect today d req)
    as [H | [(_ & Hst & _) | [(_ & Hst & _) | (_ & Hst & _)]]];
    [exact H | | | ]; rewrite Hst in Hs;
    unfold HTTP_201_CREATED, HTTP_200_OK, HTTP_204_NO_CONTENT in Hs; lia.
Qed.

(** X8: a PUT to [/accounts/{id}] touches the record of that identifier
    only: the number of records and the next identifier stay the same, and
    every other identifier is found with the record it had. *)
Theorem put_touches_only_its_id
        (d : Account.db) (req : Request) (seg : string) (n : Z) :
  method req = PUT ->
  path req = ("/accounts/" ++ seg)%string ->
  Account.int_of_segment seg = Some n ->
  List.length (Account.rows (snd (serve today d req)))
  = List.length (Account.rows d)
  /\ Account.next_id (snd (serve today d req)) = Account.next_id d
  /\ forall m,
       m <> n ->
       Account.find (snd (serve today d req)) (Account.IdInt m)
       = Account.find d (Account.IdInt m).
Proof.
  intros Hm Hp Hs.
  rewrite (serve_update today d req seg n Hm Hp Hs). unfold respond.
  destruct (update_account_cases today n req d)
    as [[e ->] | (a & a' & _ & _ & Hid & ->)]; cbn [fst snd].
  - auto.
  - split; [apply length_map|]. split; [reflexivity|].
    intros m Hne. exact (find_update_other d n m a' Hid Hne).
Qed.

Lemma update_keeps_ids (d : Account.db) (a' : Account.t) :
  map Account.id (Account.rows (Account.update d a'))
  = map Account.id (Account.rows d).
Proof.
  unfold Account.update. cbn [Account.rows]. rewrite map_map.
  apply map_ext. intros r.
  destruct (Account.same_id r a') eqn:E; [|reflexivity].
  unfold Account.same_id in E.
  destruct (Account.id r) as [x|], (Account.id a') as [y|];
    try discriminate E.
  apply Z.eqb_eq in E. congruence.
Qed.

(** Removing the records of one identifier keeps the others distinct. *)
Lemma removal_keeps_distinct (n : Z) (rows : list Account.t) :
  NoDup (map Account.id rows) ->
  NoDup (map Account.id (filter (fun r => negb (Account.has_id n r)) rows)).
Proof.
  induction rows as [|r rows IH]; cbn [filter map]; intros Hnd.
  - exact Hnd.
  - apply NoDup_cons_iff in Hnd. destruct Hnd as [Hfresh Hnd].
    destruct (negb (Account.has_id n r)); cbn [map]; [|exact (IH Hnd)].
    apply NoDup_cons_iff. split; [|exact (IH Hnd)].
    intros Hin. apply Hfresh. apply in_map_iff in Hin.
    destruct Hin as (x & Hx & Hin). apply filter_In in Hin.
    apply in_map_iff. exists x. tauto.
Qed.

(** X9: every request keeps the identifiers of the table unique and below
    the next identifier the store hands out. *)
Theorem serve_keeps_unique_ids (d : Account.db) (req : Request) :
  unique_ids d -> unique_ids (snd (serve today d req)).
Proof.
  intros [Hnd Hall].
  destruct (serve_effect today d req)
    as [-> | [(_ & _ & a & ->) | [(_ & _ & n & a & a' & Hfind & Hid & ->)
                                 | (_ & _ & n & ->)]]].
  - split; assumption.
  - unfold unique_ids. cbn [Account.rows Account.next_id]. split.
    + rewrite map_app. cbn [map Account.set_id Account.id].
      apply NoDup_app; [exact Hnd | repeat constructor; intros [] |].
      intros x Hx [<- | []]. apply in_map_iff in Hx.
      destruct Hx as (r & Hr & Hin).
      rewrite Forall_forall in Hall. destruct (Hall r Hin) as (m & Hm & Hlt).
      assert (m = Account.next_id d) by congruence. lia.
    + apply Forall_app. split.
      * apply (Forall_impl _ (P := fun r => exists m, Account.id r = Some m
                                         /\ (m < Account.next_id d)%Z));
          [|exact Hall].
        intros r (m & Hm & Hlt). exists m. split; [exact Hm | lia].
      * repeat constructor. exists (Account.next_id d).
        split; [reflexivity | lia].
  - split.
    + rewrite update_keeps_ids. exact Hnd.
    + unfold Account.update. cbn [Account.rows Account.next_id].
      apply Forall_map. apply (Forall_impl _ (P := fun r => exists m, Account.id r = Some m
                                         /\ (m < Account.next_id d)%Z));
        [|exact Hall].
      intros r (m & Hm & Hlt).
      destruct (Account.same_id r a') eqn:E; [|eauto].
      exists n. split; [exact Hid|].
      rewrite (same_id_has_id n a' r Hid) in E. apply has_id_true in E.
      assert (m = n) by congruence. lia.
  - unfold without, unique_ids. cbn [Account.rows Account.next_id]. split.
    + apply removal_keeps_distinct. exact Hnd.
    + apply Forall_forall. intros r Hr. apply filter_In in Hr.
      rewrite Forall_forall in Hall. exact (Hall r (proj1 Hr)).
Qed.

(** X10: a POST to [/accounts] with the JSON content type whose body lacks
    one of name, email, address and phone number, or holds something else
    than a text for it, is answered 400 and creates nothing. *)
Theorem post_missing_field_is_400
        (d : Account.db) (req : Request) (k : string) :
  method req = POST ->
  path req = "/accounts" ->
  headers_get "Content-Type" (headers req) = Some "application/json" ->
  In k ["name"; "email"; "address"; "phone_number"] ->
  (forall s, obj_get k (get_json req) <> Some (JStr s)) ->
  status_code (fst (serve today d req)) = HTTP_400_BAD_REQUEST
  /\ snd (serve today d req) = d.
Proof.
  intros Hm Hp Hh Hk Hno.
  rewrite (serve_create today d req (conj Hm Hp)). unfold respond.
  destruct (create_accounts_cases today req d)
    as [[Hne _] | [(_ & msg & _ & ->) | (_ & a & Ha & _)]];
    [contradiction | split; reflexivity |].
  apply deserialize_ok in Ha. destruct Ha as (_ & H1 & H2 & H3 & H4 & _).
  cbn [In] in Hk.
  destruct Hk as [<- | [<- | [<- | [<- | []]]]];
    [destruct (Hno _ H1) | destruct (Hno _ H2)
     | destruct (Hno _ H3) | destruct (Hno _ H4)].
Qed.

(** A creation request carrying the serialized form of an account whose
    date exists stores that account under the next identifier. *)
Lemma serve_post_serialized (d : Account.db) (req : Request) (a : Account.t) :
  is_create req ->
  headers_get "Content-Type" (headers req) = Some "application/json" ->
  get_json req = Account.serialize a ->
  valid_date (Account.date_joined a) = true ->
  serve today d req
  = (mkResponse HTTP_201_CREATED
       (BJson (Account.serialize (Account.set_id (Account.next_id d) a)))
       [("Location", "/")],
     Account.mkDb (Account.rows d ++ [Account.set_id (Account.next_id d) a])
                  (Account.next_id d + 1)).
Proof.
  intros Hc Hh Hj Hv.
  rewrite (serve_create today d req Hc). unfold respond.
  destruct (create_accounts_cases today req d)
    as [[Hne _] | [(_ & msg & He & _) | (_ & a' & Ha & ->)]].
  - contradiction.
  - rewrite Hj, (deserialize_serialize today a _ Hv) in He. discriminate He.
  - rewrite Hj, (deserialize_serialize today a _ Hv) in Ha.
    injection Ha as <-. reflexivity.
Qed.

Lemma client_post_is_create (d : Account.db) (payload : Json) :
  is_create (mkRequest POST BASE_URL json_content_type payload).
Proof. split; reflexivity. Qed.

(** X11: posting the serialized form of an account whose date exists, as
    the test client does, is answered 201 with the same account under the
    next identifier of the table, and that account is stored. *)
Theorem post_serialized_account_is_201 (d : Account.db) (a : Account.t) :
  valid_date (Account.date_joined a) = true ->
  client_post today d BASE_URL (Account.serialize a)
  = (mkResponse HTTP_201_CREATED
       (BJson (Account.serialize (Account.set_id (Account.next_id d) a)))
       [("Location", "/")],
     Account.mkDb (Account.rows d ++ [Account.set_id (Account.next_id d) a])
                  (Account.next_id d + 1)).
Proof.
  intros Hv. unfold client_post.
  apply serve_post_serialized;
    [apply (client_post_is_create d) | reflexivity | reflexivity | exact Hv].
Qed.





Lemma find_appended (d : Account.db) (a : Account.t) (k : Z) :
  Account.find d (Account.IdInt (Account.next_id d)) = None ->
  Account.find
    (Account.mkDb (Account.rows d ++ [Account.set_id (Account.next_id d) a]) k)
    (Account.IdInt (Account.next_id d))
  = Some (Account.set_id (Account.next_id d) a).
Proof.
  unfold Account.find. cbn [Account.key_of Account.rows].
  induction (Account.rows d) as [|r l IH]; cbn [app List.find]; intros H.
  - unfold Account.has_id. cbn [Account.set_id Account.id].
    rewrite Z.eqb_refl. reflexivity.
  - destruct (Account.has_id (Account.next_id d) r); [discriminate H|].
    exact (IH H).
Qed.

Lemma account_url_path (n : Z) :
  account_url n = ("/accounts/" ++ str n)%string.
Proof. reflexivity. Qed.

(** X14: an account created through the test client is read back under
    its identifier: when the next identifier of the table is not negative
    and not in use, a GET to the URL of the new account returns 200 with
    the account that was posted, under that identifier. *)
Theorem create_then_read (d : Account.db) (a : Account.t) (later : date) :
  valid_date (Account.date_joined a) = true ->
  (0 <= Account.next_id d)%Z ->
  (forall b, ~ stored d (Account.next_id d) b) ->
  fst (client_get later
                  (snd (client_post today d BASE_URL (Account.serialize a)))
                  (account_url (Account.next_id d)))
  = mkResponse HTTP_200_OK
      (BJson (Account.serialize (Account.set_id (Account.next_id d) a))) [].
Proof.
  intros Hv Hpos Hfresh. apply find_none_not_stored in Hfresh.
  unfold client_post.
  rewrite (serve_post_serialized d _ a (client_post_is_create d _)
                                 eq_refl eq_refl Hv).
  cbn [snd]. unfold client_get.
  pose proof (int_of_segment_str _ Hpos) as Hseg.
  rewrite (serve_read later _
             (mkRequest GET (account_url (Account.next_id d))
                        json_content_type JNull)
             (str (Account.next_id d)) eq_refl (account_url_path _)
             (int_of_segment_valid _ _ Hseg)).
  unfold respond.
  rewrite (read_account_found _ _ _ (Account.set_id (Account.next_id d) a)).
  - reflexivity.
  - rewrite (find_segment _ _ _ Hseg). exact (find_appended d a _ Hfresh).
Qed.

(** X15: a DELETE to the URL of an identifier is answered 204 with an
    empty body, and a GET to the same URL afterwards is answered 404. *)
Theorem delete_then_read_is_404 (d : Account.db) (n : Z) (later : date) :
  (0 <= n)%Z ->
  fst (client_delete today d (account_url n))
  = mkResponse HTTP_204_NO_CONTENT (BText "") []
  /\ status_code
       (fst (client_get later (snd (client_delete today d (account_url n)))
                        (account_url n)))
     = HTTP_404_NOT_FOUND.
Proof.
  intros Hpos. pose proof (int_of_segment_str _ Hpos) as Hseg.
  unfold client_delete, client_get.
  rewrite (serve_delete today d
             (mkRequest DELETE (account_url n) [] JNull)
             (str n) n eq_refl (account_url_path n) Hseg).
  unfold respond. rewrite delete_account_run. cbn [fst snd].
  split; [reflexivity|].
  rewrite (serve_read later _
             (mkRequest GET (account_url n) json_content_type JNull)
             (str n) eq_refl (account_url_path n)
             (int_of_segment_valid _ _ Hseg)).
  unfold respond.
  rewrite (read_account_missing (str n)); [reflexivity|].
  rewrite (find_segment _ _ _ Hseg), find_without, Z.eqb_refl. reflexivity.
Qed.

(** X16: a PUT to the URL of a stored account with the serialized form of
    an account of the same identifier answers 200 with exactly the payload
    that was sent, and the table holds that account in place of the old
    one. *)
Theorem put_serialized_echoes_payload
        (d : Account.db) (n : Z) (a b : Account.t) :
  (0 <= n)%Z ->
  stored d n a ->
  Account.id b = Some n ->
  valid_date (Account.date_joined b) = true ->
  client_put today d (account_url n) (Account.serialize b)
  = (mkResponse HTTP_200_OK (BJson (Account.serialize b)) [],
     Account.update d b).
Proof.
  intros Hpos Ha Hid Hv. pose proof (int_of_segment_str _ Hpos) as Hseg.
  destruct (stored_find d n a Ha) as [a0 Hfind].
  destruct (find_stored d n a0 Hfind) as [_ Hid0].
  unfold client_put.
  rewrite (serve_update today d
             (mkRequest PUT (account_url n) json_content_type
                        (Account.serialize b))
             (str n) n eq_refl (account_url_path n) Hseg).
  unfold respond.
  rewrite (update_account_valid today n _ d a0 b Hfind); [reflexivity|].
  cbn [get_json]. rewrite (deserialize_serialize today b a0 Hv).
  rewrite Hid0, <- Hid. destruct b; reflexivity.
Qed.

(** X17: the URL the tests build for an identifier that is not negative is
    routed to the three account views with that identifier; for a negative
    identifier it still reaches [read_account], as text, while PUT and
    DELETE are refused with 405. *)
Theorem account_url_routing (n : Z) :
  ((0 <= n)%Z ->
   match_url url_map GET (account_url n) false
   = Ok (EP_read_account, [Account.IdStr (str n)])
   /\ match_url url_map PUT (account_url n) false
      = Ok (EP_update_account, [Account.IdInt n])
   /\ match_url url_map DELETE (account_url n) false
      = Ok (EP_delete_account, [Account.IdInt n]))
  /\ ((n < 0)%Z ->
      match_url url_map GET (account_url n) false
      = Ok (EP_read_account, [Account.IdStr (str n)])
      /\ forall m,
           m = PUT \/ m = DELETE ->
           match_url url_map m (account_url n) false
           = Raise (HTTPException HTTP_405_METHOD_NOT_ALLOWED
                      "Method Not Allowed")).
Proof.
  rewrite account_url_path. split.
  - intros Hpos. pose proof (int_of_segment_str _ Hpos) as Hseg.
    split; [exact (route_read _ (int_of_segment_valid _ _ Hseg))|].
    split; [exact (route_update _ _ Hseg) | exact (route_delete _ _ Hseg)].
  - intros Hneg. pose proof (int_of_segment_str_negative _ Hneg) as Hseg.
    assert (valid_segment (str n) = true) as Hv.
    { destruct n as [|p|p]; try lia.
      unfold str, valid_segment.
      cbn [Z.to_int DecimalString.NilZero.string_of_int no_slash String.eqb
           negb andb].
      change (Ascii.eqb "-" slash) with false. cbn [negb andb].
      rewrite andb_true_r.
      destruct (Pos.to_uint p) as [|u|u|u|u|u|u|u|u|u|u];
        [reflexivity | ..];
        cbn [DecimalString.NilZero.string_of_uint];
        match goal with
        | |- no_slash (DecimalString.NilEmpty.string_of_uint ?v) = true =>
            exact (digits_value_no_slash _ 0%Z _ (digits_value_uint v 0%Z))
        end. }
    split; [exact (route_read _ Hv)|].
    intros m [-> | ->]; apply (route_not_int _ _ Hv Hseg); discriminate.
Qed.

End Further.

(* ================================================================= *)
(** ** Instances of the further properties *)

Lemma health_always_ok_witness :
  serve Sample.today Sample.table
        (mkRequest GET "/health" Sample.json_headers Sample.bob)
  = (mkResponse HTTP_200_OK (BJson (JObj [("status", JStr "OK")])) [],
     Sample.table).
Proof.
  apply (health_always_ok Sample.today Sample.table); reflexivity.
Defined.

Lemma index_always_ok_witness :
  status_code (fst (serve Sample.today Sample.table
                          (mkRequest GET "/" [] JNull)))
  = HTTP_200_OK.
Proof.
  rewrite (index_always_ok Sample.today Sample.table
                           (mkRequest GET "/" [] JNull) eq_refl eq_refl).
  reflexivity.
Defined.

Lemma unlisted_method_is_405_witness :
  serve Sample.today Sample.table (mkRequest POST "/" [] JNull)
  = (mkResponse HTTP_405_METHOD_NOT_ALLOWED (BText "Method Not Allowed") [],
     Sample.table).
Proof.
  apply (unlisted_method_is_405 Sample.today Sample.table).
  left. split; [left; reflexivity | left; reflexivity].
Defined.

Lemma create_valid_is_201_witness :
  exists dj,
    isoformat dj = "2021-12-05"
    /\ serve Sample.today Sample.table Sample.post_bob
       = (mkResponse HTTP_201_CREATED
            (BJson (account_json 2 "Bob" "bob@example.org" "2 High St"
                                 "555-0199" "2021-12-05"))
            [("Location", "/")],
          Account.mkDb
            (Account.rows Sample.table
             ++ [Account.mk (Some 2%Z) "Bob" "bob@example.org" "2 High St"
                            "555-0199" dj]) 3).
Proof.
  apply (create_valid_is_201 Sample.today Sample.table Sample.post_bob
                             "Bob" "bob@example.org" "2 High St" "555-0199"
                             "2021-12-05");
    try reflexivity.
  left. split; [reflexivity|]. vm_compute. discriminate.
Defined.

Lemma get_never_writes_witness :
  snd (serve Sample.today Sample.table Sample.get_text) = Sample.table.
Proof.
  apply (get_never_writes Sample.today Sample.table Sample.get_text).
  reflexivity.
Defined.

Lemma error_answer_keeps_table_witness :
  snd (serve Sample.today Sample.table Sample.put_null) = Sample.table.
Proof.
  apply (error_answer_keeps_table Sample.today Sample.table Sample.put_null).
  vm_compute. repeat constructor.
Defined.

Lemma put_touches_only_its_id_witness :
  List.length (Account.rows (snd (serve Sample.today Sample.table Sample.put_bob)))
  = 1.
Proof.
  destruct (put_touches_only_its_id Sample.today Sample.table Sample.put_bob
                                    "1" 1%Z eq_refl eq_refl eq_refl)
    as [Hlen _].
  exact Hlen.
Defined.

Lemma serve_keeps_unique_ids_witness :
  unique_ids (snd (serve Sample.today Sample.table Sample.post_bob)).
Proof.
  apply (serve_keeps_unique_ids Sample.today Sample.table Sample.post_bob).
  split.
  - repeat constructor. intros [].
  - repeat constructor. exists 1%Z. split; [reflexivity | reflexivity].
Defined.

Lemma post_missing_field_is_400_witness :
  status_code (fst (serve Sample.today Sample.table Sample.post_incomplete))
  = HTTP_400_BAD_REQUEST
  /\ snd (serve Sample.today Sample.table Sample.post_incomplete) = Sample.table.
Proof.
  apply (post_missing_field_is_400 Sample.today Sample.table
                                   Sample.post_incomplete "email");
    [reflexivity | reflexivity | reflexivity
     | right; left; reflexivity | intros s; discriminate].
Defined.

Lemma post_serialized_account_is_201_witness :
  status_code
    (fst (client_post Sample.today Sample.table BASE_URL
                      (Account.serialize Sample.ann)))
  = HTTP_201_CREATED.
Proof.
  rewrite (post_serialized_account_is_201 Sample.today Sample.table Sample.ann
                                          eq_refl).
  reflexivity.
Defined.



Lemma create_then_read_witness :
  fst (client_get Sample.today
                  (snd (client_post Sample.today Sample.table BASE_URL
                                    (Account.serialize Sample.ann)))
                  (account_url 2))
  = mkResponse HTTP_200_OK
      (BJson (Account.serialize (Account.set_id 2 Sample.ann))) [].
Proof.
  apply (create_then_read Sample.today Sample.table Sample.ann Sample.today).
  - reflexivity.
  - discriminate.
  - intros b [[<- | []] Hid]. discriminate Hid.
Defined.

Lemma delete_then_read_is_404_witness :
  status_code
    (fst (client_get Sample.today
                     (snd (client_delete Sample.today Sample.table
                                         (account_url 1)))
                     (account_url 1)))
  = HTTP_404_NOT_FOUND.
Proof.
  destruct (delete_then_read_is_404 Sample.today Sample.table 1%Z Sample.today)
    as [_ Hget]; [discriminate | exact Hget].
Defined.

Lemma put_serialized_echoes_payload_witness :
  client_put Sample.today Sample.table (account_url 1)
             (Account.serialize (Account.set_id 1 (Account.new Sample.today)))
  = (mkResponse HTTP_200_OK
       (BJson (Account.serialize (Account.set_id 1 (Account.new Sample.today))))
       [],
     Account.update Sample.table (Account.set_id 1 (Account.new Sample.today))).
Proof.
  apply (put_serialized_echoes_payload Sample.today Sample.table 1%Z Sample.ann).
  - discriminate.
  - split; [left; reflexivity | reflexivity].
  - reflexivity.
  - reflexivity.
Defined.

Lemma account_url_routing_witness :
  match_url url_map PUT (account_url 12) false
  = Ok (EP_update_account, [Account.IdInt 12])
  /\ match_url url_map PUT (account_url (-5)) false
     = Raise (HTTPException HTTP_405_METHOD_NOT_ALLOWED "Method Not Allowed").
Proof.
  split.
  - destruct (account_url_routing 12) as [Hpos _].
    destruct Hpos as (_ & Hput & _); [discriminate | exact Hput].
  - destruct (account_url_routing (-5)) as [_ Hneg].
    destruct Hneg as [_ Hm]; [reflexivity|].
    apply Hm. left. reflexivity.
Defined.
